(** * fundamental-ngx: mobile-mode configuration and the platform text area

    A shallow embedding of two pieces of the component library:

    - [MobileModeBase] (the abstract directive behind the mobile variants of
      menu, select, combobox and multi-input): the resolution of the
      mobile-mode configuration from the injected list and the component;
    - [TextAreaComponent] (the platform form control): wrap-type check,
      character counter, auto-grow and the key-up handler.

    JavaScript objects are finite maps from property names to values, a
    [throw] is the [Throw] result of an error monad, and the fields of a
    component instance are the fields of a record that every method takes
    and returns. *)

From Stdlib Require Import ZArith Ascii String.
From stdpp Require Import gmap strings list fin_maps pretty.

Set Warnings "-register-all".
Local Open Scope string_scope.
Local Open Scope Z_scope.

(** ** JavaScript values *)

Module Js.

(** The values a configuration object can hold.  Numbers are the integral
    ones; an object is the map of its own enumerable properties. *)
Inductive Value : Type :=
| VUndefined
| VNull
| VBool (b : bool)
| VNum (n : Z)
| VStr (s : string)
| VObj (props : gmap string Value).

(** An object literal's content. *)
Abbreviation Obj := (gmap string Value).

(** [ToBoolean]: what [if (v)], [v || w] and [v && w] test. *)
Definition truthy (v : Value) : bool :=
  match v with
  | VUndefined | VNull => false
  | VBool b => b
  | VNum n => negb (Z.eqb n 0)
  | VStr s => negb (String.eqb s "")
  | VObj _ => true
  end.

(** [v && w]. *)
Definition and_ (v w : Value) : Value := if truthy v then w else v.

(** [o.k] on an object: the property, or [undefined]. *)
Definition get (o : Obj) (k : string) : Value := default VUndefined (o !! k).

(** The own enumerable properties of a string: one per character, keyed by
    its decimal index. *)
Fixpoint string_props (i : nat) (s : string) : Obj :=
  match s with
  | EmptyString => ∅
  | String c s' => <[pretty i := VStr (String c EmptyString)]> (string_props (S i) s')
  end.

(** What [...v] contributes inside an object literal: the own enumerable
    properties of [v]; nothing for [undefined], [null], booleans and
    numbers. *)
Definition own_props (v : Value) : Obj :=
  match v with
  | VObj m => m
  | VStr s => string_props 0 s
  | _ => ∅
  end.

(** [{...a, ...b}]: the properties of [a], overwritten by those of [b]. *)
Definition spread2 (a b : Obj) : Obj := b ∪ a.

(** *** Numbers

    A number is an integer or [NaN] ([None]); a numeric field that was never
    assigned ([undefined]) behaves as [NaN] in arithmetic and comparisons,
    and is [None] as well. *)
Abbreviation Num := (option Z).

Definition num_truthy (n : Num) : bool :=
  match n with
  | Some z => negb (Z.eqb z 0)
  | None => false
  end.

Definition num_add (a b : Num) : Num := x ← a; y ← b; Some (x + y).
Definition num_sub (a b : Num) : Num := x ← a; y ← b; Some (x - y).
Definition num_mul (a b : Num) : Num := x ← a; y ← b; Some (x * y).

(** [a > b] and [a <= b]: false as soon as one side is [NaN]. *)
Definition num_gt (a b : Num) : bool :=
  match a, b with
  | Some x, Some y => Z.gtb x y
  | _, _ => false
  end.

Definition num_le (a b : Num) : bool :=
  match a, b with
  | Some x, Some y => Z.leb x y
  | _, _ => false
  end.

(** [n + 'px'] starts with the decimal text of [n]. *)
Definition num_to_string (n : Num) : string :=
  match n with
  | Some z => pretty z
  | None => "NaN"
  end.

Definition px (n : Num) : string := num_to_string n ++ "px".

(** [parseInt(s, 10)]: leading white space is skipped, a sign is read, then
    the longest run of decimal digits; no digit gives [NaN]. *)
Definition is_space (c : ascii) : bool :=
  let n := nat_of_ascii c in
  Nat.eqb n 32 || (Nat.leb 9 n && Nat.leb n 13).

Definition digit_of (c : ascii) : option Z :=
  let n := nat_of_ascii c in
  if Nat.leb 48 n && Nat.leb n 57 then Some (Z.of_nat (n - 48)) else None.

Fixpoint skip_space (s : string) : string :=
  match s with
  | String c s' => if is_space c then skip_space s' else s
  | EmptyString => EmptyString
  end.

Fixpoint digits (acc : Num) (s : string) : Num :=
  match s with
  | String c s' =>
      match digit_of c with
      | Some d => digits (Some (10 * default 0 acc + d)) s'
      | None => acc
      end
  | EmptyString => acc
  end.

(** The Number nearest to an integer: itself up to 53 bits, beyond that the
    nearest integer with a 53-bit mantissa, the even one of two equally near
    (finite doubles only: the model has no [Infinity]). *)
Definition to_number (z : Z) : Z :=
  let a := Z.abs z in
  if a <? 2 ^ 53 then z
  else
    let e := Z.log2 a - 52 in
    let q := a / 2 ^ e in
    let r := a mod 2 ^ e in
    let half := 2 ^ (e - 1) in
    let q' := if (half <? r) || ((r =? half) && Z.odd q) then q + 1 else q in
    Z.sgn z * (q' * 2 ^ e).

Definition parseInt (s : string) : Num :=
  match skip_space s with
  | String "-" s' => Z.opp <$> (to_number <$> digits None s')
  | String "+" s' => to_number <$> digits None s'
  | s' => to_number <$> digits None s'
  end.

(** The error monad: a call returns or throws. *)
Inductive Error : Type :=
| Err (message : string)
| TypeError.

Inductive Result (A : Type) : Type :=
| Ok (a : A)
| Throw (e : Error).
Arguments Ok {A} a.
Arguments Throw {A} e.

#[global] Instance Result_ret : MRet Result := λ A a, Ok a.
#[global] Instance Result_bind : MBind Result := λ A B f r,
  match r with
  | Ok a => f a
  | Throw e => Throw e
  end.

(** The call completed normally. *)
Definition returns {A} (r : Result A) : Prop := ∃ a, r = Ok a.

(** *** Spreads and [&&] *)

Lemma and_same v : and_ v v = v.
Proof. unfold and_. by destruct (truthy v). Qed.

Lemma lookup_spread2 (a b : Obj) k :
  spread2 a b !! k = match b !! k with Some v => Some v | None => a !! k end.
Proof. unfold spread2. rewrite lookup_union. by destruct (b !! k), (a !! k). Qed.

(** *** [parseInt] reads back what [n + 'px'] wrote *)

Lemma digit_of_pretty_N_char d :
  (d < 10)%N → digit_of (pretty_N_char d) = Some (Z.of_N d).
Proof.
  intros Hd. destruct d as [|p]; [done |].
  do 4 (destruct p as [p|p|]; try done; try lia).
Qed.

Lemma pretty_N_go_app x s t : pretty_N_go x s +:+ t = pretty_N_go x (s +:+ t).
Proof.
  revert s. induction (N.lt_wf_0 x) as [x _ IH]. intros s.
  destruct (decide (x = 0)%N) as [->|Hx]; [done |].
  rewrite (pretty_N_go_step x s), (pretty_N_go_step x (s +:+ t)) by lia.
  rewrite IH; [done |]. apply N.div_lt; lia.
Qed.

Lemma pretty_N_go_head x s :
  (0 < x)%N → ∃ c t, pretty_N_go x s = String c t ∧ is_Some (digit_of c).
Proof.
  revert s. induction (N.lt_wf_0 x) as [x _ IH]. intros s Hx.
  rewrite pretty_N_go_step by done.
  destruct (decide (x `div` 10 = 0)%N) as [->|Hq].
  - rewrite pretty_N_go_0. eexists _, _. split; [done |].
    rewrite digit_of_pretty_N_char; [by eexists |]. by apply N.mod_lt.
  - apply IH; [by apply N.div_lt | by apply N.neq_0_lt_0].
Qed.

Lemma digits_pretty_N_go x s :
  (0 < x)%N → digits None (pretty_N_go x s) = digits (Some (Z.of_N x)) s.
Proof.
  revert s. induction (N.lt_wf_0 x) as [x _ IH]. intros s Hx.
  rewrite pretty_N_go_step by done.
  assert (Hd : digit_of (pretty_N_char (x `mod` 10)) = Some (Z.of_N (x `mod` 10)))
    by (apply digit_of_pretty_N_char; by apply N.mod_lt).
  assert (Hx10 : Z.of_N x = 10 * Z.of_N (x `div` 10) + Z.of_N (x `mod` 10)).
  { rewrite (N.div_mod x 10) at 1 by done.
    by rewrite N2Z.inj_add, N2Z.inj_mul. }
  destruct (decide (x `div` 10 = 0)%N) as [Hq|Hq].
  - rewrite Hq in *. rewrite pretty_N_go_0. simpl. rewrite Hd. simpl.
    by rewrite Hx10.
  - rewrite IH; [| by apply N.div_lt | by apply N.neq_0_lt_0].
    simpl. rewrite Hd. simpl.
    by rewrite Hx10.
Qed.

Lemma to_number_small z : Z.abs z < 2 ^ 53 → to_number z = z.
Proof.
  intros Hz. unfold to_number.
  destruct (Z.ltb_spec (Z.abs z) (2 ^ 53)); [done | lia].
Qed.

Lemma parseInt_digit_head c t :
  is_Some (digit_of c) →
  parseInt (String c t) = to_number <$> digits None (String c t).
Proof.
  intros [d Hd]. destruct c as [[] [] [] [] [] [] [] []];
    try discriminate Hd; reflexivity.
Qed.

Lemma parseInt_px z : Z.abs z < 2 ^ 53 → parseInt (px (Some z)) = Some z.
Proof.
  intros Hz. unfold px, num_to_string. destruct z as [|p|p]; [done | |].
  - change (pretty (Z.pos p)) with (pretty_N_go (N.pos p) "").
    change (?a ++ ?b) with (a +:+ b). rewrite pretty_N_go_app.
    destruct (pretty_N_go_head (N.pos p) ("" +:+ "px")) as (c & t & Hct & Hc);
      [done |].
    rewrite Hct, parseInt_digit_head by done.
    rewrite <- Hct, digits_pretty_N_go by done.
    change (digits (Some (Z.of_N (N.pos p))) ("" +:+ "px")) with (Some (Z.pos p)).
    cbn [fmap option_fmap option_map]. by rewrite to_number_small.
  - change (pretty (Z.neg p)) with ("-" +:+ pretty_N_go (N.pos p) "").
    change (?a ++ ?b) with (a +:+ b).
    change (parseInt (("-" +:+ pretty_N_go (N.pos p) "") +:+ "px"))
      with (Z.opp <$> (to_number <$> digits None (pretty_N_go (N.pos p) "" +:+ "px"))).
    rewrite pretty_N_go_app, digits_pretty_N_go by done.
    change (digits (Some (Z.of_N (N.pos p))) ("" +:+ "px")) with (Some (Z.pos p)).
    cbn [fmap option_fmap option_map]. rewrite to_number_small; [done | lia].
Qed.

End Js.

Import Js.

(** ** MobileModeBase *)

Module MobileMode.

(** [enum MobileModeControl]. *)
Inductive MobileModeControl : Type := MENU | SELECT | COMBOBOX | MULTI_INPUT.

#[global] Instance MobileModeControl_eq_dec : EqDecision MobileModeControl.
Proof. solve_decision. Defined.

(** [interface MobileModeConfigToken].  The [config] of an entry may be
    missing: the code reads it as [injectedConfig.config || {}]. *)
Record MobileModeConfigToken : Type := mkToken {
  target : MobileModeControl;
  config : option Obj
}.

(** The part of the wrapped component the directive reads: its optional
    [mobileConfig] input. *)
Record MobileMode : Type := mkComponent {
  mobileConfig : option Obj
}.

(** [c || {}] on an optional configuration object. *)
Definition or_empty (c : option Obj) : Obj := default ∅ c.

(** [_mergeConfigs]. *)
Definition _mergeConfigs (config1 config2 : Obj) : Obj :=
  <["dialogConfig" :=
      VObj (spread2
              (own_props (and_ (get config1 "dialogConfig") (get config1 "dialogConfig")))
              (own_props (and_ (get config2 "dialogConfig") (get config2 "dialogConfig"))))]>
    (spread2 config1 config2).

Section WithConsts.

(** The message exported by [../consts]. *)
Variable MOBILE_CONFIG_ERROR : string.

(** [_getMobileModeConfig], over the fields of [this] it reads.  The guard
    [injectedConfig || this._component.mobileConfig] holds in the first two
    rows, where the conditional expression picks the merge when an entry was
    found and the component's own object otherwise; the last row is the
    [else] branch. *)
Definition _getMobileModeConfig (this_target : MobileModeControl)
    (_component : MobileMode) (_mobileModes : list MobileModeConfigToken)
  : Result Obj :=
  let injectedConfig :=
    find (λ mode, bool_decide (target mode = this_target)) _mobileModes in
  match injectedConfig, mobileConfig _component with
  | Some injected, own =>
      Ok (_mergeConfigs (or_empty (config injected)) (or_empty own))
  | None, Some own => Ok own
  | None, None => Throw (Err MOBILE_CONFIG_ERROR)
  end.

(** The instance fields the constructor assigns. *)
Record Instance : Type := mkInstance {
  this_mobileModes : list MobileModeConfigToken;
  this_mobileConfig : Obj;
  this_dialogConfig : Value
}.

(** The constructor: the injected list defaults to [[]], then the
    configuration is resolved and its [dialogConfig] read. *)
Definition constructor (this_target : MobileModeControl) (_component : MobileMode)
    (_mobileModes : option (list MobileModeConfigToken)) : Result Instance :=
  let modes := default [] _mobileModes in
  cfg ← _getMobileModeConfig this_target _component modes;
  Ok (mkInstance modes cfg (get cfg "dialogConfig")).

(** No entry of the injected list is for this target. *)
Definition no_entry (this_target : MobileModeControl)
    (modes : list MobileModeConfigToken) : Prop :=
  ∀ mode, mode ∈ modes → target mode ≠ this_target.

(** [injected] is the first entry of the list whose target is this one. *)
Definition first_entry (this_target : MobileModeControl)
    (modes : list MobileModeConfigToken) (injected : MobileModeConfigToken) : Prop :=
  ∃ before after,
    modes = (before ++ injected :: after)%list
    ∧ no_entry this_target before
    ∧ target injected = this_target.

(** *** What [Array.prototype.find] returns here *)

Lemma find_None_no_entry tgt modes :
  find (λ mode, bool_decide (target mode = tgt)) modes = None ↔ no_entry tgt modes.
Proof.
  unfold no_entry. induction modes as [|m modes IH]; simpl.
  - split; [intros _ mode Hin; inversion Hin | done].
  - case_bool_decide as Hm.
    + split; [done | intros H; exfalso; apply (H m); [left | done]].
    + rewrite IH. split.
      * intros H mode Hin. apply elem_of_cons in Hin as [-> | Hin]; auto.
      * intros H mode Hin. apply H. by right.
Qed.

Lemma find_first_entry tgt modes injected :
  find (λ mode, bool_decide (target mode = tgt)) modes = Some injected
  ↔ first_entry tgt modes injected.
Proof.
  unfold first_entry. split.
  - revert injected. induction modes as [|m modes IH]; simpl; [done |].
    intros injected. case_bool_decide as Hm.
    + intros [= <-]. exists [], modes. repeat split; [| done].
      intros mode Hin. inversion Hin.
    + intros Hf. destruct (IH _ Hf) as (before & after & -> & Hno & Ht).
      exists (m :: before), after. repeat split; [| done].
      intros mode Hin. apply elem_of_cons in Hin as [-> | Hin]; auto.
  - intros (before & after & -> & Hno & Ht).
    induction before as [|b before IH]; simpl.
    + by rewrite bool_decide_eq_true_2.
    + rewrite bool_decide_eq_false_2; [| apply Hno; left].
      apply IH. intros mode Hin. apply Hno. by right.
Qed.

Lemma resolve_no_entry tgt comp modes own :
  no_entry tgt modes → mobileConfig comp = Some own →
  _getMobileModeConfig tgt comp modes = Ok own.
Proof.
  intros Hno Hown. apply find_None_no_entry in Hno.
  unfold _getMobileModeConfig. by rewrite Hno, Hown.
Qed.

Lemma resolve_first_entry tgt comp modes injected :
  first_entry tgt modes injected →
  _getMobileModeConfig tgt comp modes
  = Ok (_mergeConfigs (or_empty (config injected)) (or_empty (mobileConfig comp))).
Proof.
  intros Hfirst. apply find_first_entry in Hfirst.
  unfold _getMobileModeConfig. by rewrite Hfirst.
Qed.

(** C1: resolution throws [Error(MOBILE_CONFIG_ERROR)] exactly when the
    injected list has no entry for the component's target and the component
    has no [mobileConfig]; in every other case it returns a configuration
    and raises nothing. *)
Theorem getMobileModeConfig_throws_iff tgt comp modes :
  (_getMobileModeConfig tgt comp modes = Throw (Err MOBILE_CONFIG_ERROR)
     ↔ no_entry tgt modes ∧ mobileConfig comp = None)
  ∧ (¬ (no_entry tgt modes ∧ mobileConfig comp = None)
     ↔ returns (_getMobileModeConfig tgt comp modes)).
Proof.
  unfold _getMobileModeConfig, returns. rewrite <- find_None_no_entry.
  destruct (find _ modes) as [inj|]; [| destruct (mobileConfig comp) as [own|]].
  - split; split; try done; [by intros [? _] | eauto | by intros _ [? _]].
  - split; split; try done; [by intros [_ ?] | eauto | by intros _ [_ ?]].
  - split; split; try done; [by intros [] | by intros [? ?]].
Qed.

(** C2 (as amended): with an injected configuration object and a component
    configuration object both present, every key other than [dialogConfig]
    that both define resolves to the component's value, and every such key
    that exactly one defines resolves to that object's value. *)
Theorem getMobileModeConfig_prefers_component
    tgt comp modes injected (config1 config2 : Obj) :
  first_entry tgt modes injected →
  config injected = Some config1 →
  mobileConfig comp = Some config2 →
  ∃ resolved,
    _getMobileModeConfig tgt comp modes = Ok resolved
    ∧ ∀ k, k ≠ "dialogConfig" →
        (∀ v1 v2, config1 !! k = Some v1 → config2 !! k = Some v2 →
                  resolved !! k = Some v2)
        ∧ (∀ v1, config1 !! k = Some v1 → config2 !! k = None →
                 resolved !! k = Some v1)
        ∧ (∀ v2, config1 !! k = None → config2 !! k = Some v2 →
                 resolved !! k = Some v2)
        ∧ (config1 !! k = None → config2 !! k = None → resolved !! k = None).
Proof.
  intros Hfirst Hc1 Hc2.
  rewrite (resolve_first_entry _ _ _ _ Hfirst), Hc1, Hc2. simpl.
  eexists; split; [done |]. intros k Hk. unfold _mergeConfigs.
  rewrite lookup_insert_ne by done. rewrite lookup_spread2.
  repeat split.
  - intros v1 v2 _ H2. by rewrite H2.
  - intros v1 H1 H2. by rewrite H2.
  - intros v2 _ H2. by rewrite H2.
  - intros H1 H2. by rewrite H2.
Qed.

(** C3: the merge is shallow but for [dialogConfig]: every other key holds
    the second configuration's value, or the first's when the second has
    none; [dialogConfig] is a new object over the union of the keys of the
    two [dialogConfig]s, the second's value on a key both have, and that
    value is taken as it is, object or not. *)
Theorem mergeConfigs_dialogConfig_one_level (config1 config2 : Obj) :
  let d1 := own_props (get config1 "dialogConfig") in
  let d2 := own_props (get config2 "dialogConfig") in
  (∀ k, k ≠ "dialogConfig" →
     _mergeConfigs config1 config2 !! k
     = match config2 !! k with Some v => Some v | None => config1 !! k end)
  ∧ ∃ d : Obj,
      _mergeConfigs config1 config2 !! "dialogConfig" = Some (VObj d)
      ∧ dom d = dom d1 ∪ dom d2
      ∧ (∀ k v2, d2 !! k = Some v2 → d !! k = Some v2)
      ∧ (∀ k, d2 !! k = None → d !! k = d1 !! k)
      ∧ (∀ k (o1 o2 : Obj),
           d1 !! k = Some (VObj o1) → d2 !! k = Some (VObj o2) →
           d !! k = Some (VObj o2)).
Proof.
  intros d1 d2. unfold _mergeConfigs. rewrite !and_same. fold d1 d2. split.
  - intros k Hk. rewrite lookup_insert_ne by done. apply lookup_spread2.
  - eexists. split; [apply lookup_insert_eq |].
    split; [unfold spread2; rewrite dom_union_L; apply (comm_L _) |].
    repeat split.
    + intros k v2 H2. by rewrite lookup_spread2, H2.
    + intros k H2. by rewrite lookup_spread2, H2.
    + intros k o1 o2 _ H2. by rewrite lookup_spread2, H2.
Qed.

(** C7: without an entry for the target, a component that provides its own
    [mobileConfig] gets exactly that object; with an entry, the first entry
    of the list for the target is the one merged. *)
Theorem getMobileModeConfig_fallback_and_first tgt comp modes :
  (∀ own, no_entry tgt modes → mobileConfig comp = Some own →
     _getMobileModeConfig tgt comp modes = Ok own)
  ∧ (∀ injected, first_entry tgt modes injected →
     _getMobileModeConfig tgt comp modes
     = Ok (_mergeConfigs (or_empty (config injected)) (or_empty (mobileConfig comp)))).
Proof.
  split.
  - intros own. apply resolve_no_entry.
  - intros injected. apply resolve_first_entry.
Qed.

(** C10: with an entry for the target the constructed instance always has
    an object as [dialogConfig], the empty one when neither configuration
    has a [dialogConfig]; in the fallback branch a component default
    without [dialogConfig] leaves it [undefined]. *)
Theorem constructor_dialogConfig tgt comp modes :
  (∀ injected, first_entry tgt (default [] modes) injected →
     ∃ inst d,
       constructor tgt comp modes = Ok inst
       ∧ this_dialogConfig inst = VObj d
       ∧ this_mobileConfig inst !! "dialogConfig" = Some (VObj d)
       ∧ (or_empty (config injected) !! "dialogConfig" = None →
          or_empty (mobileConfig comp) !! "dialogConfig" = None →
          d = ∅))
  ∧ (∀ own, no_entry tgt (default [] modes) → mobileConfig comp = Some own →
     own !! "dialogConfig" = None →
     ∃ inst,
       constructor tgt comp modes = Ok inst
       ∧ this_mobileConfig inst = own
       ∧ this_dialogConfig inst = VUndefined).
Proof.
  unfold constructor. split.
  - intros injected Hfirst.
    rewrite (resolve_first_entry _ _ _ _ Hfirst). simpl.
    set (config1 := or_empty (config injected)).
    set (config2 := or_empty (mobileConfig comp)).
    assert (Hd : ∃ d, _mergeConfigs config1 config2 !! "dialogConfig" = Some (VObj d)
                      ∧ (config1 !! "dialogConfig" = None →
                         config2 !! "dialogConfig" = None → d = ∅)).
    { unfold _mergeConfigs. eexists. split; [apply lookup_insert_eq |].
      intros H1 H2. rewrite !and_same. unfold get. rewrite H1, H2. simpl.
      apply map_eq. intros k. by rewrite lookup_spread2, lookup_empty. }
    destruct Hd as (d & Hd & Hempty).
    eexists _, d. split; [done |]. simpl. unfold get. rewrite Hd. done.
  - intros own Hno Hown Hd.
    rewrite (resolve_no_entry _ _ _ _ Hno Hown). simpl.
    eexists. repeat split. unfold get. by rewrite Hd.
Qed.

End WithConsts.

(** *** A concrete select control *)

Definition sample_error : string := "mobile mode configuration is missing".

(** An injected default [{title: 'Pick', dialogConfig: {width: '300px'}}]
    and a component input [{title: 'Fruit', dialogConfig: {height: '200px'}}]. *)
Definition injected_select : Obj :=
  <["title" := VStr "Pick"]>
    (<["dialogConfig" := VObj (<["width" := VStr "300px"]> ∅)]> ∅).

Definition component_select : Obj :=
  <["title" := VStr "Fruit"]>
    (<["dialogConfig" := VObj (<["height" := VStr "200px"]> ∅)]> ∅).

Definition sample_modes : list MobileModeConfigToken :=
  [mkToken MENU None; mkToken SELECT (Some injected_select);
   mkToken SELECT (Some ∅)].

Lemma getMobileModeConfig_prefers_component_witness :
  ∃ resolved,
    _getMobileModeConfig sample_error SELECT
      (mkComponent (Some component_select)) sample_modes = Ok resolved
    ∧ ∀ k, k ≠ "dialogConfig" →
        (∀ v1 v2, injected_select !! k = Some v1 → component_select !! k = Some v2 →
                  resolved !! k = Some v2)
        ∧ (∀ v1, injected_select !! k = Some v1 → component_select !! k = None →
                 resolved !! k = Some v1)
        ∧ (∀ v2, injected_select !! k = None → component_select !! k = Some v2 →
                 resolved !! k = Some v2)
        ∧ (injected_select !! k = None → component_select !! k = None →
           resolved !! k = None).
Proof.
  apply (getMobileModeConfig_prefers_component sample_error SELECT
           (mkComponent (Some component_select)) sample_modes
           (mkToken SELECT (Some injected_select))).
  - apply find_first_entry. reflexivity.
  - reflexivity.
  - reflexivity.
Defined.

(** Two configurations whose [dialogConfig]s both nest an object under
    [position]. *)
Definition injected_nested : Obj :=
  <["dialogConfig" :=
      VObj (<["position" := VObj (<["top" := VStr "10px"]> ∅)]>
              (<["width" := VStr "300px"]> ∅))]> ∅.

Definition component_nested : Obj :=
  <["dialogConfig" :=
      VObj (<["position" := VObj (<["left" := VStr "5px"]> ∅)]> ∅)]> ∅.

Lemma getMobileModeConfig_throws_iff_witness :
  _getMobileModeConfig sample_error COMBOBOX (mkComponent None) sample_modes
  = Throw (Err sample_error)
  ∧ returns (_getMobileModeConfig sample_error COMBOBOX
               (mkComponent (Some component_select)) sample_modes)
  ∧ returns (_getMobileModeConfig sample_error SELECT (mkComponent None) sample_modes).
Proof.
  split; [| split].
  - apply (getMobileModeConfig_throws_iff sample_error COMBOBOX
             (mkComponent None) sample_modes).
    split; [apply find_None_no_entry |]; reflexivity.
  - apply (getMobileModeConfig_throws_iff sample_error COMBOBOX
             (mkComponent (Some component_select)) sample_modes).
    intros [_ Hnone]. discriminate Hnone.
  - apply (getMobileModeConfig_throws_iff sample_error SELECT
             (mkComponent None) sample_modes).
    intros [Hno _]. apply find_None_no_entry in Hno. discriminate Hno.
Defined.

Lemma mergeConfigs_dialogConfig_one_level_witness :
  ∃ d : Obj,
    _mergeConfigs injected_nested component_nested !! "dialogConfig" = Some (VObj d)
    ∧ d !! "width" = Some (VStr "300px")
    ∧ d !! "position" = Some (VObj (<["left" := VStr "5px"]> ∅)).
Proof.
  destruct (mergeConfigs_dialogConfig_one_level injected_nested component_nested)
    as (_ & d & Hd & _ & Hsecond & Hfirst & _).
  exists d. split; [exact Hd |]. split.
  - rewrite Hfirst; reflexivity.
  - apply Hsecond. reflexivity.
Defined.

Lemma getMobileModeConfig_fallback_and_first_witness :
  _getMobileModeConfig sample_error COMBOBOX
    (mkComponent (Some component_select)) sample_modes = Ok component_select
  ∧ _getMobileModeConfig sample_error SELECT
      (mkComponent (Some component_select)) sample_modes
    = Ok (_mergeConfigs injected_select component_select).
Proof.
  split.
  - apply (proj1 (getMobileModeConfig_fallback_and_first sample_error COMBOBOX
                      (mkComponent (Some component_select)) sample_modes)).
    + apply find_None_no_entry. reflexivity.
    + reflexivity.
  - apply (proj2 (getMobileModeConfig_fallback_and_first sample_error SELECT
                      (mkComponent (Some component_select)) sample_modes)
             (mkToken SELECT (Some injected_select))).
    apply find_first_entry. reflexivity.
Defined.

Lemma constructor_dialogConfig_witness :
  (∃ inst,
     constructor sample_error MENU (mkComponent None) (Some sample_modes) = Ok inst
     ∧ this_dialogConfig inst = VObj ∅)
  ∧ (∃ inst,
       constructor sample_error COMBOBOX
         (mkComponent (Some (<["title" := VStr "Fruit"]> ∅))) None = Ok inst
       ∧ this_dialogConfig inst = VUndefined).
Proof.
  split.
  - destruct (constructor_dialogConfig sample_error MENU (mkComponent None)
                (Some sample_modes)) as [Hentry _].
    destruct (Hentry (mkToken MENU None)) as (inst & d & Hrun & Hd & _ & Hempty);
      [apply find_first_entry; reflexivity |].
    exists inst. split; [exact Hrun |]. rewrite Hd, Hempty; reflexivity.
  - destruct (constructor_dialogConfig sample_error COMBOBOX
                (mkComponent (Some (<["title" := VStr "Fruit"]> ∅))) None)
      as [_ Hfallback].
    destruct (Hfallback (<["title" := VStr "Fruit"]> ∅)) as (inst & Hrun & _ & Hd);
      [apply find_None_no_entry; reflexivity | reflexivity | reflexivity |].
    exists inst. split; [exact Hrun | exact Hd].
Defined.

(** C2 as stated fails at the key [dialogConfig]: both objects define it,
    and the resolved value is neither the component's nor the injected one
    but a new object holding the properties of both. *)
Lemma getMobileModeConfig_dialogConfig_is_merged :
  ∃ resolved v1 v2,
    first_entry SELECT sample_modes (mkToken SELECT (Some injected_select))
    ∧ _getMobileModeConfig sample_error SELECT
        (mkComponent (Some component_select)) sample_modes = Ok resolved
    ∧ injected_select !! "dialogConfig" = Some v1
    ∧ component_select !! "dialogConfig" = Some v2
    ∧ resolved !! "dialogConfig" ≠ Some v2
    ∧ resolved !! "dialogConfig"
      = Some (VObj (<["width" := VStr "300px"]> (<["height" := VStr "200px"]> ∅))).
Proof.
  eexists _, _, _. split; [apply find_first_entry; reflexivity |].
  split; [reflexivity |]. split; [reflexivity |]. split; [reflexivity |].
  split.
  - intros H. apply (f_equal (λ o, own_props (default VUndefined o) !! "width")) in H.
    vm_compute in H. discriminate H.
  - vm_compute. reflexivity.
Qed.

(** *** Further properties of the resolution and of the merge *)

Section Resolution.

Variable MOBILE_CONFIG_ERROR : string.

Local Abbreviation resolve := (_getMobileModeConfig MOBILE_CONFIG_ERROR).

Lemma find_filter_target tgt (modes : list MobileModeConfigToken) :
  find (λ mode, bool_decide (target mode = tgt))
       (filter (λ mode, target mode = tgt) modes)
  = find (λ mode, bool_decide (target mode = tgt)) modes.
Proof.
  induction modes as [|m modes IH]; [done |].
  rewrite filter_cons. simpl. destruct (decide (target m = tgt)) as [Hm|Hm].
  - simpl. by rewrite bool_decide_eq_true_2.
  - by rewrite bool_decide_eq_false_2.
Qed.

Lemma get_mergeConfigs_dialogConfig (config1 config2 : Obj) :
  get (_mergeConfigs config1 config2) "dialogConfig"
  = VObj (spread2 (own_props (get config1 "dialogConfig"))
                  (own_props (get config2 "dialogConfig"))).
Proof.
  unfold get at 1, _mergeConfigs. rewrite lookup_insert_eq, !and_same. done.
Qed.

Lemma lookup_mergeConfigs_ne (config1 config2 : Obj) k :
  k ≠ "dialogConfig" →
  _mergeConfigs config1 config2 !! k
  = match config2 !! k with Some v => Some v | None => config1 !! k end.
Proof.
  intros Hk. unfold _mergeConfigs. rewrite lookup_insert_ne by done.
  apply lookup_spread2.
Qed.

Lemma mergeConfigs_ext (config1 config2 : Obj) (r : Obj) :
  get r "dialogConfig"
  = VObj (spread2 (own_props (get config1 "dialogConfig"))
                  (own_props (get config2 "dialogConfig"))) →
  is_Some (r !! "dialogConfig") →
  (∀ k, k ≠ "dialogConfig" →
        r !! k = match config2 !! k with Some v => Some v | None => config1 !! k end) →
  r = _mergeConfigs config1 config2.
Proof.
  intros Hd [v Hv] Hk. apply map_eq. intros k.
  destruct (decide (k = "dialogConfig")) as [->|Hne].
  - pose proof (get_mergeConfigs_dialogConfig config1 config2) as Hm.
    unfold get in Hd, Hm. rewrite Hv in Hd. simpl in Hd. subst v. rewrite Hv.
    unfold _mergeConfigs in *. rewrite lookup_insert_eq in *. simpl in Hm.
    by rewrite Hm.
  - by rewrite Hk, lookup_mergeConfigs_ne.
Qed.

(** X1: the resolution looks at nothing but the first entry for the
    target: entries for other controls can be dropped from the injected
    list, and so can every entry after the first one for the target. *)
Theorem getMobileModeConfig_only_first_entry tgt comp modes :
  resolve tgt comp modes
  = resolve tgt comp (filter (λ mode, target mode = tgt) modes)
  ∧ (∀ injected, first_entry tgt modes injected →
       resolve tgt comp modes = resolve tgt comp [injected]).
Proof.
  split.
  - unfold _getMobileModeConfig. by rewrite find_filter_target.
  - intros injected Hfirst. rewrite (resolve_first_entry _ _ _ _ _ Hfirst).
    symmetry. apply resolve_first_entry.
    exists [], []. repeat split; [intros mode Hin; inversion Hin |].
    by destruct Hfirst as (? & ? & _ & _ & ?).
Qed.

(** X2: merging is associative: three configurations merge to the same
    object whichever two are merged first. *)
Theorem mergeConfigs_assoc (a b c : Obj) :
  _mergeConfigs (_mergeConfigs a b) c = _mergeConfigs a (_mergeConfigs b c).
Proof.
  symmetry. apply mergeConfigs_ext.
  - rewrite !get_mergeConfigs_dialogConfig. simpl. f_equal.
    unfold spread2. by rewrite (assoc_L (∪)).
  - unfold _mergeConfigs at 1. rewrite lookup_insert_eq. by eexists.
  - intros k Hk. rewrite !lookup_mergeConfigs_ne by done.
    by destruct (c !! k), (b !! k).
Qed.

(** X3: the merge only adds keys: the merged object has the keys of both
    configurations and [dialogConfig], and no other. *)
Theorem mergeConfigs_dom (config1 config2 : Obj) :
  dom (_mergeConfigs config1 config2)
  = {["dialogConfig"]} ∪ (dom config1 ∪ dom config2).
Proof.
  unfold _mergeConfigs, spread2. rewrite dom_insert_L, dom_union_L.
  f_equal. apply (comm_L _).
Qed.

(** X4: merging the component's configuration in a second time changes
    nothing. *)
Theorem mergeConfigs_again (a b : Obj) :
  _mergeConfigs (_mergeConfigs a b) b = _mergeConfigs a b.
Proof.
  symmetry. apply mergeConfigs_ext.
  - rewrite !get_mergeConfigs_dialogConfig. simpl. f_equal.
    unfold spread2. by rewrite (assoc_L (∪)), (idemp_L (∪)).
  - unfold _mergeConfigs at 1. rewrite lookup_insert_eq. by eexists.
  - intros k Hk. rewrite !lookup_mergeConfigs_ne by done.
    by destruct (b !! k).
Qed.

Lemma mergeConfigs_empty_r (c : Obj) (d : Obj) :
  c !! "dialogConfig" = Some (VObj d) → _mergeConfigs c ∅ = c.
Proof.
  intros Hd. symmetry. apply mergeConfigs_ext.
  - unfold get. rewrite Hd, lookup_empty. simpl. f_equal.
    unfold spread2. by rewrite (left_id_L ∅ (∪)).
  - by eexists.
  - intros k _. by rewrite lookup_empty.
Qed.

Lemma mergeConfigs_empty_l (c : Obj) (d : Obj) :
  c !! "dialogConfig" = Some (VObj d) → _mergeConfigs ∅ c = c.
Proof.
  intros Hd. symmetry. apply mergeConfigs_ext.
  - unfold get. rewrite Hd, lookup_empty. simpl. f_equal.
    unfold spread2. by rewrite (right_id_L ∅ (∪)).
  - by eexists.
  - intros k _. rewrite lookup_empty. by destruct (c !! k).
Qed.

(** X5: when an entry for the target exists and only one side brings a
    configuration, whose [dialogConfig] is an object, the resolved
    configuration is that configuration; when neither side brings one it is
    [{dialogConfig: {}}]. *)
Theorem getMobileModeConfig_single_source tgt comp modes injected :
  first_entry tgt modes injected →
  (∀ c d, config injected = Some c → mobileConfig comp = None →
          c !! "dialogConfig" = Some (VObj d) → resolve tgt comp modes = Ok c)
  ∧ (∀ c d, config injected = None → mobileConfig comp = Some c →
            c !! "dialogConfig" = Some (VObj d) → resolve tgt comp modes = Ok c)
  ∧ (config injected = None → mobileConfig comp = None →
     resolve tgt comp modes = Ok {["dialogConfig" := VObj ∅]}).
Proof.
  intros Hfirst. rewrite (resolve_first_entry _ _ _ _ _ Hfirst).
  split; [| split].
  - intros c d -> -> Hd. simpl. f_equal. by eapply mergeConfigs_empty_r.
  - intros c d -> -> Hd. simpl. f_equal. by eapply mergeConfigs_empty_l.
  - intros -> ->. reflexivity.
Qed.

(** X6: a missing injected list counts as an empty one, so the
    constructor then throws exactly when the component has no
    [mobileConfig]; and every instance it builds keeps as [dialogConfig] the
    [dialogConfig] of its [mobileConfig], which is the resolution of the list
    it stored. *)
Theorem constructor_instance tgt comp :
  constructor MOBILE_CONFIG_ERROR tgt comp None
  = constructor MOBILE_CONFIG_ERROR tgt comp (Some [])
  ∧ (constructor MOBILE_CONFIG_ERROR tgt comp None = Throw (Err MOBILE_CONFIG_ERROR)
     ↔ mobileConfig comp = None)
  ∧ (∀ modes inst,
       constructor MOBILE_CONFIG_ERROR tgt comp modes = Ok inst →
       this_mobileModes inst = default [] modes
       ∧ resolve tgt comp (this_mobileModes inst) = Ok (this_mobileConfig inst)
       ∧ this_dialogConfig inst = get (this_mobileConfig inst) "dialogConfig").
Proof.
  split; [done |]. split.
  - unfold constructor, _getMobileModeConfig. simpl.
    destruct (mobileConfig comp); simpl; split; done.
  - intros modes inst. unfold constructor.
    destruct (resolve tgt comp (default [] modes)) as [cfg|e] eqn:Hr; simpl;
      [| done].
    intros [= <-]. simpl. done.
Qed.

End Resolution.

Lemma getMobileModeConfig_single_source_witness :
  _getMobileModeConfig sample_error SELECT (mkComponent None) sample_modes
  = Ok injected_select
  ∧ _getMobileModeConfig sample_error MENU (mkComponent None) sample_modes
    = Ok {["dialogConfig" := VObj ∅]}.
Proof.
  split.
  - destruct (getMobileModeConfig_single_source sample_error SELECT
                (mkComponent None) sample_modes
                (mkToken SELECT (Some injected_select))) as (Hinjected & _ & _);
      [apply find_first_entry; reflexivity |].
    apply (Hinjected injected_select (<["width" := VStr "300px"]> ∅));
      reflexivity.
  - destruct (getMobileModeConfig_single_source sample_error MENU
                (mkComponent None) sample_modes (mkToken MENU None))
      as (_ & _ & Hnone);
      [apply find_first_entry; reflexivity |].
    apply Hnone; reflexivity.
Defined.

End MobileMode.

(** ** TextAreaComponent *)

Module TextArea.

(** What the control holds and what the forms API writes into it: a string,
    [null] or [undefined]. *)
Inductive ControlValue : Type :=
| CUndefined
| CNull
| CStr (s : string).

Definition cv_truthy (v : ControlValue) : bool :=
  match v with
  | CStr s => negb (String.eqb s "")
  | _ => false
  end.

(** [s.length], in characters of the model's strings. *)
Definition str_length (s : string) : Z := Z.of_nat (String.length s).

(** An optional string input is truthy when set and not empty. *)
Definition str_truthy (s : option string) : bool :=
  match s with
  | Some x => negb (String.eqb x "")
  | None => false
  end.

(** [const VALID_WRAP_TYPES]. *)
Definition VALID_WRAP_TYPES : list string := ["hard"; "soft"; "off"].

(** [DELETE] and [BACKSPACE] of [@angular/cdk/keycodes]. *)
Definition DELETE : Z := 46.
Definition BACKSPACE : Z := 8.

(** [x === v] for a string [x]. *)
Definition strict_eq_string (x : string) (v : Value) : bool :=
  match v with
  | VStr s => String.eqb x s
  | _ => false
  end.

(** [l.indexOf(v)], counting from [i]. *)
Fixpoint indexOf_from (i : Z) (l : list string) (v : Value) : Z :=
  match l with
  | [] => -1
  | x :: l' => if strict_eq_string x v then i else indexOf_from (i + 1) l' v
  end.

Definition indexOf (l : list string) (v : Value) : Z := indexOf_from 0 l v.

(** The native [<textarea>]: the two inline styles the component writes,
    the computed style it reads, the scroll height the layout gives for an
    inline height, what [focus] and [setSelectionRange] did, and the
    browser's CSS parser: for a property and a value, the text it stores
    when it takes the value, nothing when it does not. *)
Record Element : Type := mkElement {
  style_height : string;
  style_maxHeight : string;
  getPropertyValue : string → string;
  scrollHeight : string → Z;
  focused : bool;
  selectionRange : option (Num * Num);
  css_parse : string → string → option string
}.

(** A whole number of pixels from 0 to 999999, as [n + 'px'] writes it. *)
Definition is_px_length (value : string) : bool :=
  match parseInt value with
  | Some n => Z.leb 0 n && Z.ltb n 1000000 && String.eqb value (px (Some n))
  | None => false
  end.

(** What an assignment to [style.height] or [style.maxHeight] stores.
    Every browser takes such a pixel length and the keyword [inherit] for
    both properties and stores them as they are written; for any other
    value its parser decides whether it is taken and how it is written
    back. *)
Definition style_value (el : Element) (property value : string) : option string :=
  if is_px_length value || String.eqb value "inherit" then Some value
  else css_parse el property value.

(** [el.style.height = h]: a value that is not taken leaves the style as it
    was. *)
Definition set_style_height (h : string) (el : Element) : Element :=
  match style_value el "height" h with
  | Some stored =>
      mkElement stored (style_maxHeight el) (getPropertyValue el)
        (scrollHeight el) (focused el) (selectionRange el) (css_parse el)
  | None => el
  end.

(** [el.style.maxHeight = h]. *)
Definition set_style_maxHeight (h : string) (el : Element) : Element :=
  match style_value el "max-height" h with
  | Some stored =>
      mkElement (style_height el) stored (getPropertyValue el)
        (scrollHeight el) (focused el) (selectionRange el) (css_parse el)
  | None => el
  end.

Definition focus (el : Element) : Element :=
  mkElement (style_height el) (style_maxHeight el) (getPropertyValue el)
    (scrollHeight el) true (selectionRange el) (css_parse el).

Definition setSelectionRange (a b : Num) (el : Element) : Element :=
  mkElement (style_height el) (style_maxHeight el) (getPropertyValue el)
    (scrollHeight el) (focused el) (Some (a, b)) (css_parse el).

(** [_getTextareaTotalHeight], on the element. *)
Definition _getTextareaTotalHeight (el : Element) : Num :=
  num_add
    (num_add (parseInt (getPropertyValue el "border-top-width"))
             (Some (scrollHeight el (style_height el))))
    (parseInt (getPropertyValue el "border-bottom-width")).

(** *** The style setters *)

Lemma style_value_inherit el property :
  style_value el property "inherit" = Some "inherit".
Proof. reflexivity. Qed.

Lemma style_value_px el property n :
  0 ≤ n < 1000000 →
  style_value el property (px (Some n)) = Some (px (Some n)).
Proof.
  intros Hn. unfold style_value, is_px_length.
  rewrite parseInt_px by lia.
  replace (Z.leb 0 n) with true by (symmetry; lia).
  replace (Z.ltb n 1000000) with true by (symmetry; lia).
  by rewrite String.eqb_refl.
Qed.

Lemma set_style_height_inherit el :
  set_style_height "inherit" el
  = mkElement "inherit" (style_maxHeight el) (getPropertyValue el)
      (scrollHeight el) (focused el) (selectionRange el) (css_parse el).
Proof. reflexivity. Qed.

Lemma set_style_height_frame h el :
  style_height (set_style_height h el)
  = default (style_height el) (style_value el "height" h)
  ∧ style_maxHeight (set_style_height h el) = style_maxHeight el
  ∧ getPropertyValue (set_style_height h el) = getPropertyValue el
  ∧ scrollHeight (set_style_height h el) = scrollHeight el
  ∧ css_parse (set_style_height h el) = css_parse el
  ∧ focused (set_style_height h el) = focused el
  ∧ selectionRange (set_style_height h el) = selectionRange el.
Proof. unfold set_style_height. by destruct (style_value el "height" h). Qed.

Lemma set_style_maxHeight_frame h el :
  style_maxHeight (set_style_maxHeight h el)
  = default (style_maxHeight el) (style_value el "max-height" h)
  ∧ style_height (set_style_maxHeight h el) = style_height el
  ∧ getPropertyValue (set_style_maxHeight h el) = getPropertyValue el
  ∧ scrollHeight (set_style_maxHeight h el) = scrollHeight el
  ∧ css_parse (set_style_maxHeight h el) = css_parse el.
Proof. unfold set_style_maxHeight. by destruct (style_value el "max-height" h). Qed.

Lemma style_value_same el el' property value :
  css_parse el' = css_parse el →
  style_value el' property value = style_value el property value.
Proof. intros H. unfold style_value. by rewrite H. Qed.

(** Setting a height on an element whose height was just reset. *)
Lemma set_style_height_after_inherit h el :
  let el' := set_style_height h (set_style_height "inherit" el) in
  style_height el' = default "inherit" (style_value el "height" h)
  ∧ style_maxHeight el' = style_maxHeight el
  ∧ getPropertyValue el' = getPropertyValue el
  ∧ scrollHeight el' = scrollHeight el
  ∧ css_parse el' = css_parse el
  ∧ set_style_height "inherit" el' = set_style_height "inherit" el.
Proof.
  cbv zeta. rewrite (set_style_height_inherit el).
  set (el1 := mkElement "inherit" _ _ _ _ _ _).
  destruct (set_style_height_frame h el1) as (Hh & Hm & Hg & Hs & Hc & Hf & Hr).
  rewrite (style_value_same el el1) in Hh by done.
  rewrite !set_style_height_inherit, Hh, Hm, Hg, Hs, Hc, Hf, Hr.
  repeat split.
Qed.

Lemma set_style_height_twice h el :
  ∃ h', set_style_height h (set_style_height "inherit" el) = set_style_height h' el.
Proof.
  rewrite set_style_height_inherit.
  set (el1 := mkElement "inherit" _ _ _ _ _ _).
  unfold set_style_height at 1. rewrite (style_value_same el el1) by done.
  destruct (style_value el "height" h) as [stored|] eqn:Hok.
  - exists h. unfold set_style_height. by rewrite Hok.
  - exists "inherit". by rewrite set_style_height_inherit.
Qed.

Section Component.

(** The fields inherited from [BaseInput], whose source is not part of
    this development. *)
Variable Base : Type.

Record State : Type := mkState {
  base : Base;
  height : option string;
  growingMaxLines : Num;
  wrapType : Value;
  maxLength : Num;
  showExceededText : bool;
  growing : bool;
  textareaElement : option Element;
  exceededCharCount : Num;
  counterExcessOrRemaining : string;
  isValueCustomSet : bool;
  _textAreaCharCount : Z;
  _isPasted : bool;
  stateChanges : list string
}.

Definition set_textareaElement (el : Element) (s : State) : State :=
  mkState (base s) (height s) (growingMaxLines s) (wrapType s) (maxLength s)
    (showExceededText s) (growing s) (Some el) (exceededCharCount s)
    (counterExcessOrRemaining s) (isValueCustomSet s) (_textAreaCharCount s)
    (_isPasted s) (stateChanges s).

(** The framework binding a new [height] input. *)
Definition set_height (h : option string) (s : State) : State :=
  mkState (base s) h (growingMaxLines s) (wrapType s) (maxLength s)
    (showExceededText s) (growing s) (textareaElement s) (exceededCharCount s)
    (counterExcessOrRemaining s) (isValueCustomSet s) (_textAreaCharCount s)
    (_isPasted s) (stateChanges s).

Definition set_exceededCharCount (n : Num) (s : State) : State :=
  mkState (base s) (height s) (growingMaxLines s) (wrapType s) (maxLength s)
    (showExceededText s) (growing s) (textareaElement s) n
    (counterExcessOrRemaining s) (isValueCustomSet s) (_textAreaCharCount s)
    (_isPasted s) (stateChanges s).

Definition set_counterExcessOrRemaining (t : string) (s : State) : State :=
  mkState (base s) (height s) (growingMaxLines s) (wrapType s) (maxLength s)
    (showExceededText s) (growing s) (textareaElement s) (exceededCharCount s)
    t (isValueCustomSet s) (_textAreaCharCount s) (_isPasted s) (stateChanges s).

Definition set_isValueCustomSet (b : bool) (s : State) : State :=
  mkState (base s) (height s) (growingMaxLines s) (wrapType s) (maxLength s)
    (showExceededText s) (growing s) (textareaElement s) (exceededCharCount s)
    (counterExcessOrRemaining s) b (_textAreaCharCount s) (_isPasted s)
    (stateChanges s).

Definition set_textAreaCharCount (n : Z) (s : State) : State :=
  mkState (base s) (height s) (growingMaxLines s) (wrapType s) (maxLength s)
    (showExceededText s) (growing s) (textareaElement s) (exceededCharCount s)
    (counterExcessOrRemaining s) (isValueCustomSet s) n (_isPasted s)
    (stateChanges s).

Definition set_isPasted (b : bool) (s : State) : State :=
  mkState (base s) (height s) (growingMaxLines s) (wrapType s) (maxLength s)
    (showExceededText s) (growing s) (textareaElement s) (exceededCharCount s)
    (counterExcessOrRemaining s) (isValueCustomSet s) (_textAreaCharCount s)
    b (stateChanges s).

(** [this.stateChanges.next(msg)]: the notifications sent so far. *)
Definition stateChanges_next (msg : string) (s : State) : State :=
  mkState (base s) (height s) (growingMaxLines s) (wrapType s) (maxLength s)
    (showExceededText s) (growing s) (textareaElement s) (exceededCharCount s)
    (counterExcessOrRemaining s) (isValueCustomSet s) (_textAreaCharCount s)
    (_isPasted s) (stateChanges s ++ [msg])%list.

(** [this.textareaElement.nativeElement]: a [TypeError] before the view
    exists. *)
Definition nativeElement (s : State) : Result Element :=
  match textareaElement s with
  | Some el => Ok el
  | None => Throw TypeError
  end.

(** The methods of [BaseInput] the component calls through [super].  They
    run on the whole instance; [getValue] only reads the inherited fields. *)
Variable super_getValue : Base → ControlValue.
Variable super_setValue : ControlValue → State → Result State.
Variable super_writeValue : ControlValue → State → Result State.
Variable super_ngOnInit : State → Result State.

(** [get value()]. *)
Definition value (s : State) : ControlValue := super_getValue (base s).

(** [v.length]: a [TypeError] on [undefined] and [null]. *)
Definition cv_length (v : ControlValue) : Result Z :=
  match v with
  | CStr x => Ok (str_length x)
  | _ => Throw TypeError
  end.

(** [v.substring(0, n)]: a negative or [NaN] end counts as [0], an end past
    the last character as the length. *)
Definition cv_substring_to (n : Num) (v : ControlValue) : Result ControlValue :=
  match v with
  | CStr x => Ok (CStr (substring 0 (Z.to_nat (default 0 n)) x))
  | _ => Throw TypeError
  end.

(** [this.maxLength ? this.maxLength : 0]. *)
Definition maxLength_or_0 (s : State) : Num :=
  if num_truthy (maxLength s) then maxLength s else Some 0.

(** [set value(value)]. *)
Definition set_value (v : ControlValue) (s : State) : Result State :=
  if cv_truthy v then super_setValue v s
  else super_writeValue (CStr "") (set_exceededCharCount (maxLength_or_0 s) s).

Definition remainingText : string := "remaining".
Definition excessText : string := "excess".

(** The text of the template literal in [ngOnInit]; [$ {] with a space
    interpolates nothing. *)
Definition WRAP_TYPE_ERROR : string :=
  "Textarea wrap type $ {this.wrapType} is not supported".

(** [ngOnInit]. *)
Definition ngOnInit (s : State) : Result State :=
  if negb (truthy (wrapType s)) || Z.eqb (indexOf VALID_WRAP_TYPES (wrapType s)) (-1)
  then Throw (Err WRAP_TYPE_ERROR)
  else
    let s1 :=
      if negb (cv_truthy (value s))
      then set_exceededCharCount (maxLength_or_0 s) s
      else set_isValueCustomSet true s in
    super_ngOnInit s1.

(** [validateLengthOnCustomSet]. *)
Definition validateLengthOnCustomSet (s : State) : Result State :=
  if num_gt (Some (_textAreaCharCount s)) (maxLength s) then
    s1 ← (if _isPasted s then
             el ← nativeElement s;
             mret (set_textareaElement
                     (setSelectionRange (maxLength s) (Some (_textAreaCharCount s))
                        (focus el)) s)
           else mret s);
    mret (set_isPasted false
            (set_exceededCharCount
               (num_sub (Some (_textAreaCharCount s1)) (maxLength s1))
               (set_counterExcessOrRemaining excessText s1)))
  else
    mret (set_isPasted false
            (set_exceededCharCount
               (num_sub (maxLength s) (Some (_textAreaCharCount s)))
               (set_counterExcessOrRemaining remainingText s))).

(** [updateCounterInteractions]. *)
Definition updateCounterInteractions (s : State) : Result State :=
  if cv_truthy (value s) then
    n ← cv_length (value s);
    let s1 := set_textAreaCharCount n s in
    if num_truthy (maxLength s1) then validateLengthOnCustomSet s1 else mret s1
  else mret s.

(** [writeValue]. *)
Definition writeValue (v : ControlValue) (s : State) : Result State :=
  if cv_truthy v then
    s1 ← super_writeValue v s;
    s2 ← updateCounterInteractions s1;
    mret (stateChanges_next "textarea: writeValue" s2)
  else mret s.

(** [autoGrowTextArea]. *)
Definition autoGrowTextArea (s : State) : Result State :=
  if growing s then
    el ← nativeElement s;
    let el1 := set_style_height "inherit" el in
    let textareaTotalHeight := _getTextareaTotalHeight el1 in
    let maxHeight := parseInt (style_maxHeight el1) in
    let applied :=
      if num_truthy maxHeight then
        if num_le textareaTotalHeight maxHeight then px textareaTotalHeight
        else
          match height s with
          | Some h => if str_truthy (Some h) then h else px maxHeight
          | None => px maxHeight
          end
      else px textareaTotalHeight in
    mret (set_textareaElement (set_style_height applied el1) s)
  else mret s.

(** [getTextareaLineHeight]. *)
Definition getTextareaLineHeight (s : State) : Num :=
  match textareaElement s with
  | Some el => parseInt (getPropertyValue el "line-height")
  | None => Some 20
  end.

(** [_setMaxHeight]. *)
Definition _setMaxHeight (s : State) : Result State :=
  match growing s, textareaElement s with
  | true, Some el =>
      let el1 :=
        if num_truthy (growingMaxLines s)
        then set_style_maxHeight
               (px (num_mul (growingMaxLines s) (getTextareaLineHeight s))) el
        else el in
      let el2 :=
        match height s with
        | Some h => if str_truthy (Some h) then set_style_maxHeight h el1 else el1
        | None => el1
        end in
      mret (set_textareaElement el2 s)
  | _, _ =>
      match height s with
      | Some h =>
          if str_truthy (Some h) then
            el ← nativeElement s;
            mret (set_textareaElement (set_style_height h el) s)
          else mret s
      | None => mret s
      end
  end.

(** [handleBackPress], on the event's [keyCode]. *)
Definition handleBackPress (keyCode : Z) (s : State) : Result State :=
  s1 ← (if growing s then
           s' ← autoGrowTextArea s;
           mret (set_isValueCustomSet false s')
         else mret s);
  if negb (showExceededText s1)
     && (Z.eqb keyCode DELETE || Z.eqb keyCode BACKSPACE) then
    if cv_truthy (value s1) then
      n ← cv_length (value s1);
      let s2 := set_textAreaCharCount n s1 in
      if num_gt (Some (_textAreaCharCount s2)) (maxLength s2) then
        cut ← cv_substring_to (maxLength s2) (value s2);
        s3 ← set_value cut s2;
        mret (set_isValueCustomSet false s3)
      else mret s2
    else mret s1
  else mret s1.

(** The wrap types [ngOnInit] accepts. *)
Definition supported_wrapType (w : Value) : Prop :=
  w = VStr "hard" ∨ w = VStr "soft" ∨ w = VStr "off".

(** The part of [BaseInput]'s contract the key-up handler relies on:
    [setValue] completes and [getValue] then returns what was set. *)
Definition setValue_stores : Prop :=
  ∀ v s, ∃ s', super_setValue v s = Ok s' ∧ super_getValue (base s') = v.

(** The view is there whenever the handler has to touch it. *)
Definition view_rendered (s : State) : Prop := is_Some (textareaElement s).

(** *** The wrap-type check *)

Lemma wrapType_check w :
  negb (truthy w) || Z.eqb (indexOf VALID_WRAP_TYPES w) (-1) = false
  ↔ supported_wrapType w.
Proof.
  unfold supported_wrapType. destruct w as [| |b|n|x|o];
    try (split;
         [ intros H; apply orb_false_elim in H as [_ H]; vm_compute in H; discriminate
         | intros [|[|]]; discriminate ]).
  - unfold indexOf, VALID_WRAP_TYPES, indexOf_from, strict_eq_string, truthy.
    destruct (String.eqb_spec "hard" x) as [<-|Hh]; [by split; auto |].
    destruct (String.eqb_spec "soft" x) as [<-|Hs]; [by split; auto |].
    destruct (String.eqb_spec "off" x) as [<-|Ho]; [by split; auto |].
    split; [rewrite orb_true_r; discriminate |].
    intros [[=]|[[=]|[=]]]; congruence.
Qed.

(** C4: [ngOnInit] throws for every wrap type other than ['hard'], ['soft']
    and ['off'], a missing or empty one included; for those three its own
    code throws nothing, it hands over to [BaseInput.ngOnInit] and returns
    whenever that returns. *)
Theorem ngOnInit_wrapType s :
  (¬ supported_wrapType (wrapType s) → ngOnInit s = Throw (Err WRAP_TYPE_ERROR))
  ∧ (wrapType s = VUndefined ∨ wrapType s = VNull ∨ wrapType s = VStr "" →
     ngOnInit s = Throw (Err WRAP_TYPE_ERROR))
  ∧ (supported_wrapType (wrapType s) →
     (∃ s1, ngOnInit s = super_ngOnInit s1 ∧ wrapType s1 = wrapType s)
     ∧ ((∀ s0, returns (super_ngOnInit s0)) → returns (ngOnInit s))).
Proof.
  unfold ngOnInit. pose proof (wrapType_check (wrapType s)) as Hc.
  destruct (negb _ || _) eqn:Hw.
  - split; [done |]. split; [done |]. intros Hs. apply Hc in Hs. discriminate.
  - assert (Hs : supported_wrapType (wrapType s)) by by apply Hc.
    split; [done |]. split.
    + intros [H|[H|H]]; rewrite H in Hs; by destruct Hs as [|[|]].
    + intros _. split; [| intros Hsuper; apply Hsuper].
      eexists. split; [done |]. by destruct (negb (cv_truthy (value s))).
Qed.

(** *** The character counter *)

Lemma cv_truthy_CStr v : v ≠ "" → cv_truthy (CStr v) = true.
Proof. intros Hv. simpl. by destruct (String.eqb_spec v "") as [->|]. Qed.

Lemma validateLengthOnCustomSet_result s m :
  maxLength s = Some m →
  (_isPasted s = true → view_rendered s) →
  ∃ s',
    validateLengthOnCustomSet s = Ok s'
    ∧ _textAreaCharCount s' = _textAreaCharCount s
    ∧ (m < _textAreaCharCount s →
       counterExcessOrRemaining s' = "excess"
       ∧ exceededCharCount s' = Some (_textAreaCharCount s - m))
    ∧ (_textAreaCharCount s ≤ m →
       counterExcessOrRemaining s' = "remaining"
       ∧ exceededCharCount s' = Some (m - _textAreaCharCount s)).
Proof.
  intros Hm Hview. unfold validateLengthOnCustomSet. rewrite Hm. simpl.
  destruct (Z.gtb_spec (_textAreaCharCount s) m) as [Hgt|Hle].
  - destruct (_isPasted s) eqn:Hp.
    + destruct (Hview eq_refl) as [el Hel]. unfold nativeElement. rewrite Hel.
      simpl. rewrite Hm. simpl. eexists. split; [done |]. simpl.
      split; [done |]. split; [done | lia].
    + simpl. rewrite Hm. simpl. eexists. split; [done |]. simpl.
      split; [done |]. split; [done | lia].
  - eexists. split; [done |]. simpl. split; [done |]. split; [lia | done].
Qed.

(** C5: for a non-empty value and a positive [maxLength],
    [updateCounterInteractions] records the length of the value; when the
    length exceeds [maxLength] the indicator is ['excess'] and
    [exceededCharCount] is the length minus [maxLength], otherwise the
    indicator is ['remaining'] and [exceededCharCount] is [maxLength] minus
    the length. *)
Theorem updateCounterInteractions_counts s v m :
  value s = CStr v → v ≠ "" →
  maxLength s = Some m → 0 < m →
  (_isPasted s = true → view_rendered s) →
  ∃ s',
    updateCounterInteractions s = Ok s'
    ∧ _textAreaCharCount s' = str_length v
    ∧ (m < str_length v →
       counterExcessOrRemaining s' = "excess"
       ∧ exceededCharCount s' = Some (str_length v - m))
    ∧ (str_length v ≤ m →
       counterExcessOrRemaining s' = "remaining"
       ∧ exceededCharCount s' = Some (m - str_length v)).
Proof.
  intros Hv Hne Hm Hpos Hview.
  unfold updateCounterInteractions. rewrite Hv, (cv_truthy_CStr _ Hne). simpl.
  rewrite Hm. simpl. replace (m =? 0) with false by (symmetry; lia). simpl.
  destruct (validateLengthOnCustomSet_result
              (set_textAreaCharCount (str_length v) s) m Hm Hview)
    as (s' & -> & Hcount & Hex & Hrem).
  exists s'. simpl in *. by rewrite Hcount.
Qed.

(** C8: [writeValue] with [undefined], [null] or the empty string changes
    nothing: the instance it returns is the one it was given, with the same
    value, character count, [exceededCharCount] and indicator, and with no
    notification added to [stateChanges]. *)
Theorem writeValue_falsy_noop v s :
  v = CUndefined ∨ v = CNull ∨ v = CStr "" →
  ∃ s',
    writeValue v s = Ok s'
    ∧ s' = s
    ∧ value s' = value s
    ∧ _textAreaCharCount s' = _textAreaCharCount s
    ∧ exceededCharCount s' = exceededCharCount s
    ∧ counterExcessOrRemaining s' = counterExcessOrRemaining s
    ∧ stateChanges s' = stateChanges s.
Proof.
  intros Hv. exists s. unfold writeValue.
  assert (cv_truthy v = false) as -> by (by destruct Hv as [->|[->| ->]]).
  repeat split.
Qed.

(** *** Auto-grow *)

(** What [autoGrowTextArea] assigns to the inline height once it has reset
    it to [inherit]. *)
Lemma autoGrowTextArea_run s el :
  growing s = true →
  textareaElement s = Some el →
  let total :=
    num_add
      (num_add (parseInt (getPropertyValue el "border-top-width"))
               (Some (scrollHeight el "inherit")))
      (parseInt (getPropertyValue el "border-bottom-width")) in
  let maxHeight := parseInt (style_maxHeight el) in
  let applied :=
    if num_truthy maxHeight then
      if num_le total maxHeight then px total
      else
        match height s with
        | Some h => if str_truthy (Some h) then h else px maxHeight
        | None => px maxHeight
        end
    else px total in
  autoGrowTextArea s
  = Ok (set_textareaElement
          (set_style_height applied (set_style_height "inherit" el)) s).
Proof.
  intros Hg Hel. unfold autoGrowTextArea, nativeElement. by rewrite Hg, Hel.
Qed.

(** C6 (as amended): on a growing textarea [autoGrowTextArea] assigns to
    the inline height, after resetting it to [inherit]: the total height
    (border-top width plus scroll height plus border-bottom width) in [px]
    when the inline max-height parses to no number or to zero, or when the
    total does not exceed it; the max height in [px] when the total exceeds
    it and no [height] input is set; the [height] input as it is when the
    total exceeds it and one is set.  The inline height becomes what the
    browser stores for the assigned string, and stays [inherit] when the
    browser does not take it; a whole number of [px] from 0 to 999999 is
    always stored as it is and reads back as that number. *)
Theorem autoGrowTextArea_height s el :
  growing s = true →
  textareaElement s = Some el →
  let total :=
    num_add
      (num_add (parseInt (getPropertyValue el "border-top-width"))
               (Some (scrollHeight el "inherit")))
      (parseInt (getPropertyValue el "border-bottom-width")) in
  let maxHeight := parseInt (style_maxHeight el) in
  ∃ el' applied,
    autoGrowTextArea s = Ok (set_textareaElement el' s)
    ∧ style_maxHeight el' = style_maxHeight el
    ∧ style_height el' = default "inherit" (style_value el "height" applied)
    ∧ (num_truthy maxHeight = false ∨ num_le total maxHeight = true →
       applied = px total)
    ∧ (num_truthy maxHeight = true → num_le total maxHeight = false →
       (str_truthy (height s) = false → applied = px maxHeight)
       ∧ (∀ h, height s = Some h → h ≠ "" → applied = h))
    ∧ (∀ n, 0 ≤ n < 1000000 → applied = px (Some n) →
       style_height el' = px (Some n)
       ∧ parseInt (style_height el') = Some n).
Proof.
  intros Hg Hel total maxHeight.
  rewrite (autoGrowTextArea_run s el Hg Hel). fold total maxHeight.
  set (applied := if num_truthy maxHeight then _ else _).
  destruct (set_style_height_after_inherit applied el)
    as (Hheight & Hmax & _ & _ & _ & _).
  eexists _, applied. split; [done |]. split; [done |]. split; [done |].
  split; [| split].
  - subst applied. intros [-> | Hle]; [done |].
    rewrite Hle. by destruct (num_truthy maxHeight).
  - subst applied. intros -> ->. split.
    + destruct (height s) as [h|]; [| done]. intros Hh. simpl in Hh.
      simpl. by rewrite Hh.
    + intros h -> Hh. simpl. by destruct (String.eqb_spec h "") as [->|].
  - intros n Hn Happlied. rewrite Hheight, Happlied, style_value_px by done.
    split; [done |]. apply parseInt_px. lia.
Qed.

(** *** The key-up handler *)

Lemma length_substring_0 n x :
  String.length (substring 0 n x) = Nat.min n (String.length x).
Proof.
  revert x. induction n as [|n IH]; intros [|c x]; simpl; auto.
Qed.

(** What the handler's first statement leaves: the inherited fields and the
    inputs are untouched. *)
Lemma handleBackPress_grow_step s :
  (growing s = true → view_rendered s) →
  ∃ s1,
    (if growing s then
       s' ← autoGrowTextArea s; mret (set_isValueCustomSet false s')
     else mret s) = Ok s1
    ∧ base s1 = base s
    ∧ showExceededText s1 = showExceededText s
    ∧ maxLength s1 = maxLength s.
Proof.
  intros Hview. destruct (growing s) eqn:Hg; [| by exists s].
  destruct (Hview eq_refl) as [el Hel].
  unfold autoGrowTextArea, nativeElement. rewrite Hg, Hel. simpl.
  eexists. split; [done |]. done.
Qed.

(** C9: with [showExceededText] off, a positive [maxLength] and a value
    longer than it, the release of DELETE or BACKSPACE leaves as value the
    first [maxLength] characters, whose length is [maxLength], and clears
    [isValueCustomSet]; the release of another key, or any release with
    [showExceededText] on, leaves the value as it was. *)
Theorem handleBackPress_truncation keyCode s :
  (growing s = true → view_rendered s) →
  (setValue_stores →
   ∀ v m,
     value s = CStr v → v ≠ "" →
     maxLength s = Some m → 0 < m → m < str_length v →
     showExceededText s = false →
     keyCode = DELETE ∨ keyCode = BACKSPACE →
     ∃ s',
       handleBackPress keyCode s = Ok s'
       ∧ value s' = CStr (substring 0 (Z.to_nat m) v)
       ∧ str_length (substring 0 (Z.to_nat m) v) = m
       ∧ isValueCustomSet s' = false)
  ∧ (showExceededText s = true ∨ (keyCode ≠ DELETE ∧ keyCode ≠ BACKSPACE) →
     ∃ s',
       handleBackPress keyCode s = Ok s'
       ∧ base s' = base s
       ∧ value s' = value s).
Proof.
  intros Hview. unfold handleBackPress.
  destruct (handleBackPress_grow_step s Hview) as (s1 & -> & Hb & Hshow & Hmax).
  simpl. rewrite Hshow. split.
  - intros Hset v m Hv Hne Hm Hpos Hlong Hoff Hkey.
    assert (Hlen : str_length (substring 0 (Z.to_nat m) v) = m).
    { unfold str_length in *. rewrite length_substring_0. lia. }
    assert (Hcut : cv_truthy (CStr (substring 0 (Z.to_nat m) v)) = true).
    { apply cv_truthy_CStr. intros Hempty. rewrite Hempty in Hlen.
      unfold str_length in Hlen. simpl in Hlen. lia. }
    rewrite Hoff.
    replace (Z.eqb keyCode DELETE || Z.eqb keyCode BACKSPACE) with true
      by (destruct Hkey as [-> | ->]; reflexivity).
    unfold value at 1 2. rewrite Hb. fold (value s).
    rewrite Hv, (cv_truthy_CStr _ Hne). simpl. rewrite Hmax, Hm. simpl.
    assert (Hgt : (str_length v >? m) = true) by lia.
    rewrite ?Hgt. unfold value at 1. simpl. rewrite Hb. fold (value s). rewrite Hv. simpl.
    unfold set_value. rewrite Hcut.
    destruct (Hset (CStr (substring 0 (Z.to_nat m) v))
                (set_textAreaCharCount (str_length v) s1)) as (s3 & -> & Hget).
    simpl. rewrite ?Hgt. eexists. split; [done |]. unfold value. simpl.
    by rewrite Hget.
  - intros Hother.
    assert (negb (showExceededText s)
            && (Z.eqb keyCode DELETE || Z.eqb keyCode BACKSPACE) = false) as ->.
    { destruct Hother as [-> | [Hd Hbk]]; [done |].
      apply andb_false_intro2, orb_false_intro; by apply Z.eqb_neq. }
    exists s1. split; [done |]. unfold value. by rewrite Hb.
Qed.

End Component.

(** *** A concrete textarea

    The smallest base class that meets [setValue_stores]: it keeps the value
    and nothing else, and its [ngOnInit] does nothing. *)

Definition plain_getValue (b : ControlValue) : ControlValue := b.

Definition plain_store (v : ControlValue) (s : State ControlValue)
  : Result (State ControlValue) :=
  Ok (mkState ControlValue v (height _ s) (growingMaxLines _ s) (wrapType _ s)
        (maxLength _ s) (showExceededText _ s) (growing _ s)
        (textareaElement _ s) (exceededCharCount _ s)
        (counterExcessOrRemaining _ s) (isValueCustomSet _ s)
        (_textAreaCharCount _ s) (_isPasted _ s) (stateChanges _ s)).

Definition plain_ngOnInit (s : State ControlValue) : Result (State ControlValue) :=
  Ok s.

Lemma plain_setValue_stores : setValue_stores ControlValue plain_getValue plain_store.
Proof. intros v s. eexists. split; reflexivity. Qed.

(** A rendered element with one-pixel borders, whose content needs 300
    pixels whatever its inline height, in a browser that takes pixel lengths
    and [inherit] only. *)
Definition sample_element : Element :=
  mkElement "" ""
    (λ property,
       if String.eqb property "border-top-width" then "1px"
       else if String.eqb property "border-bottom-width" then "1px"
       else if String.eqb property "line-height" then "20px"
       else "")
    (λ _, 300) false None (λ _ _, None).

(** [<fdp-textarea [maxLength]="5" [growing]="true" height="100px">] holding
    ['hello world']. *)
Definition sample : State ControlValue :=
  mkState ControlValue (CStr "hello world") (Some "100px") None (VStr "soft")
    (Some 5) false true (Some sample_element) (Some 0) "remaining" true 0 false [].

(** The same textarea with the binding [[wrapType]="undefined"]. *)
Definition sample_no_wrap : State ControlValue :=
  mkState ControlValue (CStr "hello world") (Some "100px") None VUndefined
    (Some 5) false true (Some sample_element) (Some 0) "remaining" true 0 false [].

Lemma ngOnInit_wrapType_witness :
  returns (ngOnInit ControlValue plain_getValue plain_ngOnInit sample)
  ∧ ngOnInit ControlValue plain_getValue plain_ngOnInit sample_no_wrap
    = Throw (Err WRAP_TYPE_ERROR).
Proof.
  split.
  - destruct (ngOnInit_wrapType ControlValue plain_getValue plain_ngOnInit sample)
      as (_ & _ & Hok).
    apply Hok.
    + right. left. reflexivity.
    + intros s0. exists s0. reflexivity.
  - destruct (ngOnInit_wrapType ControlValue plain_getValue plain_ngOnInit
                sample_no_wrap) as (_ & Hthrow & _).
    apply Hthrow. left. reflexivity.
Defined.

Lemma updateCounterInteractions_counts_witness :
  ∃ s',
    updateCounterInteractions ControlValue plain_getValue sample = Ok s'
    ∧ _textAreaCharCount _ s' = 11
    ∧ (5 < 11 →
       counterExcessOrRemaining _ s' = "excess"
       ∧ exceededCharCount _ s' = Some (11 - 5))
    ∧ (11 ≤ 5 →
       counterExcessOrRemaining _ s' = "remaining"
       ∧ exceededCharCount _ s' = Some (5 - 11)).
Proof.
  apply (updateCounterInteractions_counts ControlValue plain_getValue
           sample "hello world" 5).
  - reflexivity.
  - discriminate.
  - reflexivity.
  - lia.
  - intros _. exists sample_element. reflexivity.
Defined.

Lemma writeValue_falsy_noop_witness :
  ∃ s',
    writeValue ControlValue plain_getValue plain_store (CStr "") sample = Ok s'
    ∧ s' = sample
    ∧ value _ plain_getValue s' = value _ plain_getValue sample
    ∧ _textAreaCharCount _ s' = _textAreaCharCount _ sample
    ∧ exceededCharCount _ s' = exceededCharCount _ sample
    ∧ counterExcessOrRemaining _ s' = counterExcessOrRemaining _ sample
    ∧ stateChanges _ s' = stateChanges _ sample.
Proof.
  apply (writeValue_falsy_noop ControlValue plain_getValue plain_store
           (CStr "") sample).
  right. right. reflexivity.
Defined.

(** The sample textarea once its inline max-height is ['100px'], and the
    same without [height] input and with a max-height of ['60px']. *)
Definition sample_capped : State ControlValue :=
  set_textareaElement _ (set_style_maxHeight "100px" sample_element) sample.

Definition sample_capped_lines : State ControlValue :=
  set_textareaElement _ (set_style_maxHeight "60px" sample_element)
    (set_height _ None sample).

Lemma autoGrowTextArea_height_witness :
  (∃ el',
     autoGrowTextArea ControlValue sample
     = Ok (set_textareaElement _ el' sample)
     ∧ style_height el' = "302px")
  ∧ (∃ el',
       autoGrowTextArea ControlValue sample_capped
       = Ok (set_textareaElement _ el' sample_capped)
       ∧ style_height el' = "100px")
  ∧ (∃ el',
       autoGrowTextArea ControlValue sample_capped_lines
       = Ok (set_textareaElement _ el' sample_capped_lines)
       ∧ style_height el' = "60px"
       ∧ parseInt (style_height el') = Some 60).
Proof.
  split; [| split].
  - destruct (autoGrowTextArea_height ControlValue sample sample_element
                eq_refl eq_refl) as (el' & applied & Hrun & _ & _ & Htotal & _ & Hpx).
    exists el'. split; [exact Hrun |].
    apply (Hpx 302); [lia |]. apply Htotal. left. reflexivity.
  - destruct (autoGrowTextArea_height ControlValue sample_capped
                (set_style_maxHeight "100px" sample_element) eq_refl eq_refl)
      as (el' & applied & Hrun & _ & _ & _ & Hcapped & Hpx).
    exists el'. split; [exact Hrun |].
    apply (Hpx 100); [lia |].
    apply (proj2 (Hcapped eq_refl eq_refl) "100px"); [reflexivity | discriminate].
  - destruct (autoGrowTextArea_height ControlValue sample_capped_lines
                (set_style_maxHeight "60px" sample_element) eq_refl eq_refl)
      as (el' & applied & Hrun & _ & _ & _ & Hcapped & Hpx).
    exists el'. split; [exact Hrun |].
    apply (Hpx 60); [lia |].
    apply (proj1 (Hcapped eq_refl eq_refl)). reflexivity.
Defined.

Lemma handleBackPress_truncation_witness :
  (∃ s',
     handleBackPress ControlValue plain_getValue plain_store plain_store
       DELETE sample = Ok s'
     ∧ value _ plain_getValue s' = CStr "hello"
     ∧ isValueCustomSet _ s' = false)
  ∧ (∃ s',
       handleBackPress ControlValue plain_getValue plain_store plain_store
         13 sample = Ok s'
       ∧ value _ plain_getValue s' = CStr "hello world").
Proof.
  assert (Hview : growing _ sample = true → view_rendered _ sample)
    by (intros _; exists sample_element; reflexivity).
  split.
  - destruct (handleBackPress_truncation ControlValue plain_getValue
                plain_store plain_store DELETE sample Hview) as [Hcut _].
    destruct (Hcut plain_setValue_stores "hello world" 5)
      as (s' & Hrun & Hvalue & _ & Hflag);
      [reflexivity | discriminate | reflexivity | lia | reflexivity
      | reflexivity | left; reflexivity |].
    exists s'. split; [exact Hrun |]. split; [exact Hvalue | exact Hflag].
  - destruct (handleBackPress_truncation ControlValue plain_getValue
                plain_store plain_store 13 sample Hview) as [_ Hkeep].
    destruct Hkeep as (s' & Hrun & _ & Hvalue);
      [right; split; discriminate |].
    exists s'. split; [exact Hrun | exact Hvalue].
Defined.

(** C6 as stated fails once the [height] input is rebound after the view
    was set up: [_setMaxHeight] has copied ['100px'] into the inline
    max-height, the input becomes ['500px'], and the next auto-grow, with a
    total height of 302 above the max height of 100, applies ['500px']. *)
Lemma autoGrowTextArea_height_input_above_max :
  ∃ s1 s3 el1 el3,
    _setMaxHeight ControlValue sample = Ok s1
    ∧ textareaElement _ s1 = Some el1
    ∧ autoGrowTextArea ControlValue (set_height _ (Some "500px") s1) = Ok s3
    ∧ textareaElement _ s3 = Some el3
    ∧ parseInt (style_maxHeight el3) = Some 100
    ∧ _getTextareaTotalHeight (set_style_height "inherit" el1) = Some 302
    ∧ style_height el3 = "500px"
    ∧ parseInt (style_height el3) = Some 500
    ∧ 100 < 302 ∧ 100 < 500.
Proof.
  eexists _, _, _, _.
  split; [reflexivity |]. split; [reflexivity |].
  split; [reflexivity |]. split; [reflexivity |].
  split; [reflexivity |]. split; [reflexivity |].
  split; [reflexivity |]. split; [reflexivity |]. lia.
Qed.

(** *** The rest of the component *)

(** What the paste handler finds in the browser: whether
    [window.clipboardData] is there (Internet Explorer) and whether
    [navigator.clipboard] is. *)
Record Browser : Type := mkBrowser {
  clipboardData : bool;
  clipboard : bool
}.

(** The callback the paste handler hands to [readText().then]; it runs
    once the clipboard text has been read. *)
Inductive Callback : Type := OnClipText.

Section Behaviour.

Variable Base : Type.
Variable super_getValue : Base → ControlValue.
Variable super_setValue : ControlValue → State Base → Result (State Base).
Variable super_writeValue : ControlValue → State Base → Result (State Base).
Variable super_ngOnInit : State Base → Result (State Base).

Local Abbreviation value_of := (value Base super_getValue).
Local Abbreviation count_of := (_textAreaCharCount Base).
Local Abbreviation validate := (validateLengthOnCustomSet Base).
Local Abbreviation update := (updateCounterInteractions Base super_getValue).
Local Abbreviation autoGrow := (autoGrowTextArea Base).
Local Abbreviation keyup :=
  (handleBackPress Base super_getValue super_setValue super_writeValue).

(** [ngAfterViewChecked]. *)
Definition ngAfterViewChecked (s : State Base) : Result (State Base) :=
  if cv_truthy (value_of s) && isValueCustomSet Base s then
    s1 ← autoGrow s;
    mret (stateChanges_next Base "textarea: ngAfterViewChecked" s1)
  else mret s.

(** [handlePasteInteraction]: the instance it leaves and the callbacks it
    has registered. *)
Definition handlePasteInteraction (w : Browser) (s : State Base)
  : Result (State Base * list Callback) :=
  let s1 := set_isPasted Base true s in
  if clipboardData w then
    s2 ← update s1;
    mret (s2, [])
  else if clipboard w then mret (s1, [OnClipText])
  else Throw TypeError.

(** The body of the callback. *)
Definition run_callback (c : Callback) (s : State Base) : Result (State Base) :=
  match c with
  | OnClipText => update s
  end.

(** [Status] of [../form-control], and what the remaining methods read
    from outside the instance: the inherited [status] and the [value]
    property of the native element. *)
Variable Status : Type.
Variable super_status : Base → option Status.
Variable element_value : Element → string.

(** The instance together with the two fields that only the display of the
    state uses; [stateType] is [None] once it was set to [null]. *)
Record View : Type := mkView {
  instance : State Base;
  hasTextExceeded : bool;
  stateType : option Status
}.

(** [BaseInput.ngAfterViewInit]. *)
Variable super_ngAfterViewInit : View → Result View.

(** [_getContentLength]: [undefined] ([None]) without element and value. *)
Definition _getContentLength (v : View) : Num :=
  let contentLength : Num := None in
  let contentLength :=
    match textareaElement Base (instance v) with
    | Some el => Some (str_length (element_value el))
    | None => contentLength
    end in
  match value_of (instance v) with
  | CStr x => if cv_truthy (CStr x) then Some (str_length x) else contentLength
  | _ => contentLength
  end.

(** [getUpdatedState]: the state it returns and the instance it leaves. *)
Definition getUpdatedState (v : View) : option Status * View :=
  if num_gt (_getContentLength v) (maxLength Base (instance v)) then
    (stateType v,
     mkView (set_counterExcessOrRemaining Base excessText (instance v))
       true (stateType v))
  else
    (super_status (base Base (instance v)),
     mkView (set_counterExcessOrRemaining Base remainingText (instance v))
       false (stateType v)).

(** [ngAfterViewInit]. *)
Definition ngAfterViewInit (v : View) : Result View :=
  s1 ← _setMaxHeight Base (instance v);
  let stateType1 := if negb (showExceededText Base s1) then None else stateType v in
  super_ngAfterViewInit (mkView s1 (hasTextExceeded v) stateType1).

(** What [BaseInput.writeValue] is relied on for when the counter is
    updated right after it: the value is stored, and the inputs and the view
    are left alone. *)
Definition writeValue_stores : Prop :=
  ∀ v s, ∃ s',
    super_writeValue v s = Ok s'
    ∧ super_getValue (base Base s') = v
    ∧ maxLength Base s' = maxLength Base s
    ∧ _isPasted Base s' = _isPasted Base s
    ∧ textareaElement Base s' = textareaElement Base s.

(** X7: with a supported wrap type, [ngOnInit] hands to the base class an
    instance whose counter starts at [maxLength] (at 0 when there is none)
    if the control is empty, and an instance flagged as custom set, counter
    untouched, if it holds a value. *)
Theorem ngOnInit_counter_start s :
  supported_wrapType (wrapType Base s) →
  (cv_truthy (value_of s) = false →
   ∃ s1,
     ngOnInit Base super_getValue super_ngOnInit s = super_ngOnInit s1
     ∧ isValueCustomSet Base s1 = isValueCustomSet Base s
     ∧ (∀ m, maxLength Base s = Some m → m ≠ 0 → exceededCharCount Base s1 = Some m)
     ∧ (maxLength Base s = None ∨ maxLength Base s = Some 0 →
        exceededCharCount Base s1 = Some 0))
  ∧ (cv_truthy (value_of s) = true →
     ∃ s1,
       ngOnInit Base super_getValue super_ngOnInit s = super_ngOnInit s1
       ∧ isValueCustomSet Base s1 = true
       ∧ exceededCharCount Base s1 = exceededCharCount Base s).
Proof.
  intros Hw. apply wrapType_check in Hw. unfold ngOnInit. rewrite Hw. split.
  - intros ->. simpl. eexists. split; [done |]. simpl. split; [done |].
    unfold maxLength_or_0. split.
    + intros m -> Hm. simpl. by rewrite (proj2 (Z.eqb_neq m 0) Hm).
    + by intros [-> | ->].
  - intros ->. simpl. by eexists.
Qed.

Lemma validateLengthOnCustomSet_returns s s' m :
  maxLength Base s = Some m →
  validate s = Ok s' →
  exceededCharCount Base s' = Some (Z.abs (count_of s - m))
  ∧ (counterExcessOrRemaining Base s' = "excess" ↔ m < count_of s)
  ∧ (counterExcessOrRemaining Base s' = "remaining" ↔ count_of s ≤ m)
  ∧ _isPasted Base s' = false
  ∧ count_of s' = count_of s
  ∧ base Base s' = base Base s.
Proof.
  intros Hm. unfold validateLengthOnCustomSet. rewrite Hm. simpl.
  destruct (Z.gtb_spec (count_of s) m) as [Hgt|Hle].
  - destruct (_isPasted Base s); [unfold nativeElement;
      destruct (textareaElement Base s); [| done] |];
      simpl; rewrite Hm; intros [= <-]; simpl;
      (split; [f_equal; lia |]); (split; [split; [lia | done] |]);
      (split; [split; [done | lia] |]); done.
  - intros [= <-]. simpl. split; [f_equal; lia |].
    split; [split; [done | lia] |]. split; [split; [lia | done] |]. done.
Qed.

(** X8: whenever [validateLengthOnCustomSet] returns, with a number as
    [maxLength], the count it leaves is the distance between the character
    count and [maxLength], never negative; the indicator says ['excess']
    exactly when the count is above [maxLength]; and the paste flag is
    down. *)
Theorem validateLengthOnCustomSet_distance s s' m :
  maxLength Base s = Some m →
  validateLengthOnCustomSet Base s = Ok s' →
  exceededCharCount Base s' = Some (Z.abs (count_of s - m))
  ∧ (counterExcessOrRemaining Base s' = "excess" ↔ m < count_of s)
  ∧ (counterExcessOrRemaining Base s' = "remaining" ↔ count_of s ≤ m)
  ∧ _isPasted Base s' = false
  ∧ count_of s' = count_of s
  ∧ base Base s' = base Base s.
Proof. apply validateLengthOnCustomSet_returns. Qed.

(** X9: [validateLengthOnCustomSet] throws in one case only, a
    [TypeError] when text was pasted, the count is above [maxLength] and
    there is no element yet.  With an element, the pasted excess is selected
    (from [maxLength] to the count) and the element focused; when nothing
    was pasted or nothing is in excess the element is not touched. *)
Theorem validateLengthOnCustomSet_selection s :
  let pasted_excess :=
    _isPasted Base s && num_gt (Some (count_of s)) (maxLength Base s) in
  (validate s = Throw TypeError
   ↔ pasted_excess = true ∧ textareaElement Base s = None)
  ∧ (∀ e, validate s = Throw e → e = TypeError)
  ∧ (∀ el, pasted_excess = true → textareaElement Base s = Some el →
     ∃ s', validate s = Ok s'
           ∧ textareaElement Base s'
             = Some (setSelectionRange (maxLength Base s) (Some (count_of s))
                       (focus el)))
  ∧ (pasted_excess = false →
     ∃ s', validate s = Ok s'
           ∧ textareaElement Base s' = textareaElement Base s).
Proof.
  intros pasted_excess. subst pasted_excess. unfold validateLengthOnCustomSet.
  destruct (num_gt _ _); [destruct (_isPasted Base s);
    [unfold nativeElement; destruct (textareaElement Base s) as [el|] |] |];
    simpl.
  - split; [split; [done | by intros [_ ?]] |]. split; [done |].
    split; [| done]. intros el' _ [= <-]. by eexists.
  - split; [done |]. split; [by intros e [= <-] |]. split; [done | done].
  - split; [split; [done | by intros [? _]] |]. split; [done |].
    split; [done |]. intros _. by eexists.
  - rewrite andb_false_r.
    split; [split; [done | by intros [? _]] |]. split; [done |].
    split; [done |]. intros _. by eexists.
Qed.

(** X10: when the base class stores what it is given, writing a non-empty
    value into a control with a positive [maxLength] leaves that value, its
    length as character count, the distance to [maxLength] as counter with
    the matching indicator, the paste flag down, and
    ['textarea: writeValue'] as the last notification. *)
Theorem writeValue_updates_counter s x m :
  writeValue_stores →
  x ≠ "" →
  maxLength Base s = Some m → 0 < m →
  (_isPasted Base s = true → view_rendered Base s) →
  ∃ s',
    writeValue Base super_getValue super_writeValue (CStr x) s = Ok s'
    ∧ value_of s' = CStr x
    ∧ count_of s' = str_length x
    ∧ exceededCharCount Base s' = Some (Z.abs (str_length x - m))
    ∧ counterExcessOrRemaining Base s'
      = (if Z.ltb m (str_length x) then "excess" else "remaining")
    ∧ _isPasted Base s' = false
    ∧ last (stateChanges Base s') = Some "textarea: writeValue".
Proof.
  intros Hstore Hx Hm Hpos Hview. unfold writeValue.
  rewrite (cv_truthy_CStr _ Hx).
  destruct (Hstore (CStr x) s) as (s1 & -> & Hget & Hmax & Hpasted & Hel). simpl.
  unfold updateCounterInteractions, value. rewrite Hget, (cv_truthy_CStr _ Hx).
  simpl. rewrite Hmax, Hm. simpl.
  replace (m =? 0) with false by (symmetry; lia). simpl.
  assert (Hm1 : maxLength Base (set_textAreaCharCount Base (str_length x) s1)
                = Some m) by (simpl; by rewrite Hmax).
  destruct (validateLengthOnCustomSet_result Base
              (set_textAreaCharCount Base (str_length x) s1) m Hm1)
    as (s2 & Hrun & Hcount & Hex & Hrem).
  { intros Hp. simpl in Hp. rewrite Hpasted in Hp.
    destruct (Hview Hp) as [el Hs]. exists el. simpl. by rewrite Hel. }
  rewrite Hrun. simpl. eexists. split; [done |]. simpl in *.
  destruct (validateLengthOnCustomSet_returns
              (set_textAreaCharCount Base (str_length x) s1) s2 m Hm1 Hrun)
    as (Habs & _ & _ & Hflag & _ & Hbase).
  simpl in *. rewrite Hbase, Hget, Hcount, Habs, Hflag.
  repeat split; [| by rewrite last_snoc].
  destruct (Z.ltb_spec m (str_length x)) as [Hlt|Hge].
  - by apply Hex.
  - by apply Hrem.
Qed.

Lemma autoGrowTextArea_cases s :
  (growing Base s = false ∧ autoGrow s = Ok s)
  ∨ (growing Base s = true ∧ textareaElement Base s = None
     ∧ autoGrow s = Throw TypeError)
  ∨ (∃ el h, growing Base s = true ∧ textareaElement Base s = Some el
             ∧ autoGrow s = Ok (set_textareaElement Base (set_style_height h el) s)).
Proof.
  destruct (growing Base s) eqn:Hg;
    [| left; split; [done |]; unfold autoGrowTextArea; by rewrite Hg].
  destruct (textareaElement Base s) as [el|] eqn:Hel.
  - right. right. rewrite (autoGrowTextArea_run Base s el Hg Hel).
    cbv zeta. set (applied := if num_truthy _ then _ else _).
    destruct (set_style_height_twice applied el) as [h ->].
    by exists el, h.
  - right. left. unfold autoGrowTextArea, nativeElement. by rewrite Hg, Hel.
Qed.

(** X11: growing an already grown textarea changes nothing: running
    [autoGrowTextArea] on the instance it returned returns that instance. *)
Theorem autoGrowTextArea_idempotent s s' :
  autoGrowTextArea Base s = Ok s' → autoGrowTextArea Base s' = Ok s'.
Proof.
  destruct (growing Base s) eqn:Hg;
    [| unfold autoGrowTextArea; rewrite Hg; intros [= <-]; by rewrite Hg].
  destruct (textareaElement Base s) as [el|] eqn:Hel;
    [| unfold autoGrowTextArea, nativeElement; by rewrite Hg, Hel].
  rewrite (autoGrowTextArea_run Base s el Hg Hel). cbv zeta.
  set (applied := if num_truthy _ then _ else _).
  intros [= <-].
  destruct (set_style_height_after_inherit applied el)
    as (_ & Hmax & Hcomputed & Hscroll & _ & Hreset).
  cbv zeta in Hmax, Hcomputed, Hscroll, Hreset.
  set (grown := set_style_height applied (set_style_height "inherit" el)) in *.
  rewrite (autoGrowTextArea_run Base (set_textareaElement Base grown s) grown
             Hg eq_refl).
  cbv zeta. cbn [height set_textareaElement].
  rewrite Hreset, Hmax, Hcomputed, Hscroll. by fold applied.
Qed.

(** X12: [autoGrowTextArea] throws exactly when the textarea is growing
    and has no element, and then a [TypeError]; it does nothing when the
    textarea is not growing; and when it returns it has changed at most the
    inline height of the element. *)
Theorem autoGrowTextArea_effect s :
  (autoGrow s = Throw TypeError
   ↔ growing Base s = true ∧ textareaElement Base s = None)
  ∧ (∀ e, autoGrow s = Throw e → e = TypeError)
  ∧ (growing Base s = false → autoGrow s = Ok s)
  ∧ (∀ s', autoGrow s = Ok s' →
       s' = s
       ∨ ∃ el h, textareaElement Base s = Some el
                 ∧ s' = set_textareaElement Base (set_style_height h el) s).
Proof.
  destruct (autoGrowTextArea_cases s)
    as [[Hg ->] | [(Hg & Hel & ->) | (el & h & Hg & Hel & ->)]].
  - rewrite Hg. repeat split; try done; [by intros [? _] |].
    intros s' [= <-]. by left.
  - rewrite Hg, Hel. repeat split; try done. by intros e [= <-].
  - rewrite Hg, Hel. repeat split; try done; [by intros [_ ?] |].
    intros s' [= <-]. right. by eexists _, _.
Qed.

(** The two assignments [_setMaxHeight] makes on a growing textarea, each
    kept only if the browser takes the value. *)
Lemma setMaxHeight_growing_run s el :
  growing Base s = true →
  textareaElement Base s = Some el →
  let lines_px :=
    px (num_mul (growingMaxLines Base s)
          (parseInt (getPropertyValue el "line-height"))) in
  let from_lines :=
    default (style_maxHeight el)
      (if num_truthy (growingMaxLines Base s)
       then style_value el "max-height" lines_px else None) in
  ∃ el',
    _setMaxHeight Base s = Ok (set_textareaElement Base el' s)
    ∧ style_height el' = style_height el
    ∧ getPropertyValue el' = getPropertyValue el
    ∧ scrollHeight el' = scrollHeight el
    ∧ css_parse el' = css_parse el
    ∧ style_maxHeight el'
      = match height Base s with
        | Some h =>
            if str_truthy (Some h)
            then default from_lines (style_value el "max-height" h)
            else from_lines
        | None => from_lines
        end.
Proof.
  intros Hg Hel. unfold _setMaxHeight, getTextareaLineHeight.
  rewrite Hg, Hel. cbv zeta.
  set (lines_px := px _).
  set (el1 := if num_truthy (growingMaxLines Base s)
              then set_style_maxHeight lines_px el else el).
  assert (H1 : style_height el1 = style_height el
               ∧ getPropertyValue el1 = getPropertyValue el
               ∧ scrollHeight el1 = scrollHeight el
               ∧ css_parse el1 = css_parse el
               ∧ style_maxHeight el1
                 = default (style_maxHeight el)
                     (if num_truthy (growingMaxLines Base s)
                      then style_value el "max-height" lines_px else None)).
  { subst el1. destruct (num_truthy _); [| done].
    by destruct (set_style_maxHeight_frame lines_px el) as (-> & -> & -> & -> & ->). }
  destruct H1 as (Hh1 & Hg1 & Hs1 & Hc1 & Hm1).
  eexists. split; [reflexivity |].
  destruct (height Base s) as [h|]; [| done].
  destruct (str_truthy (Some h)); [| done].
  destruct (set_style_maxHeight_frame h el1) as (-> & -> & -> & -> & ->).
  rewrite (style_value_same el el1) by done.
  by rewrite Hm1.
Qed.

(** X13: on a growing textarea with its element, [_setMaxHeight] leaves
    the inline height alone and assigns to the inline max-height first
    [growingMaxLines] times the line height in [px], when there are
    [growingMaxLines], and then the [height] input, when there is one; the
    max-height becomes what the browser stores for an assignment, and an
    assignment the browser does not take is dropped.  So a [height] input
    the browser takes wins over [growingMaxLines]; without one, a product
    from 0 to 999999 is stored as it is and reads back as that product; and
    the max-height stays as it was when no assignment is made or none is
    taken. *)
Theorem setMaxHeight_growing s el :
  growing Base s = true →
  textareaElement Base s = Some el →
  ∃ el',
    _setMaxHeight Base s = Ok (set_textareaElement Base el' s)
    ∧ style_height el' = style_height el
    ∧ (∀ h stored, height Base s = Some h → h ≠ "" →
       style_value el "max-height" h = Some stored →
       style_maxHeight el' = stored)
    ∧ (str_truthy (height Base s) = false
       ∨ (∃ h, height Base s = Some h
               ∧ style_value el "max-height" h = None) →
       (∀ n l, growingMaxLines Base s = Some n → n ≠ 0 →
               parseInt (getPropertyValue el "line-height") = Some l →
               0 ≤ n * l < 1000000 →
               style_maxHeight el' = px (Some (n * l))
               ∧ parseInt (style_maxHeight el') = Some (n * l))
       ∧ (∀ n, growingMaxLines Base s = Some n →
               style_value el "max-height"
                 (px (num_mul (Some n)
                        (parseInt (getPropertyValue el "line-height")))) = None →
               style_maxHeight el' = style_maxHeight el)
       ∧ (num_truthy (growingMaxLines Base s) = false →
          style_maxHeight el' = style_maxHeight el)).
Proof.
  intros Hg Hel.
  destruct (setMaxHeight_growing_run s el Hg Hel)
    as (el' & Hrun & Hheight & _ & _ & _ & Hmax).
  cbv zeta in Hmax. exists el'. split; [done |]. split; [done |]. split.
  - intros h stored Hh Hne Hok. rewrite Hmax, Hh, Hok. simpl.
    by destruct (String.eqb_spec h "") as [->|].
  - intros Hno.
    assert (Hlines : style_maxHeight el'
              = default (style_maxHeight el)
                  (if num_truthy (growingMaxLines Base s)
                   then style_value el "max-height"
                          (px (num_mul (growingMaxLines Base s)
                                 (parseInt (getPropertyValue el "line-height"))))
                   else None)).
    { rewrite Hmax. destruct Hno as [Hfalsy | (h & Hh & Hrej)].
      - destruct (height Base s) as [h|]; [| done]. by rewrite Hfalsy.
      - rewrite Hh, Hrej. by destruct (str_truthy (Some h)). }
    rewrite Hlines. split; [| split].
    + intros n l -> Hn -> Hbound. cbn [num_mul mbind option_bind].
      rewrite style_value_px by done. cbn [num_truthy].
      rewrite (proj2 (Z.eqb_neq n 0) Hn). cbn [negb default].
      split; [done |]. apply parseInt_px. lia.
    + intros n -> ->. by destruct (num_truthy (Some n)).
    + by intros ->.
Qed.

(** X14: on a textarea that is not growing, or has no element yet,
    [_setMaxHeight] ignores [growingMaxLines] and never sets a max-height:
    without a [height] input it does nothing; with one it assigns it to the
    inline height of the element, which becomes what the browser stores for
    it, and the element stays as it was if the browser does not take it;
    and it throws a [TypeError] if there is no element. *)
Theorem setMaxHeight_fixed s :
  growing Base s = false ∨ textareaElement Base s = None →
  (str_truthy (height Base s) = false → _setMaxHeight Base s = Ok s)
  ∧ (∀ h el, height Base s = Some h → h ≠ "" →
             textareaElement Base s = Some el →
             ∃ el',
               _setMaxHeight Base s = Ok (set_textareaElement Base el' s)
               ∧ style_maxHeight el' = style_maxHeight el
               ∧ (∀ stored, style_value el "height" h = Some stored →
                  style_height el' = stored)
               ∧ (style_value el "height" h = None → el' = el))
  ∧ (str_truthy (height Base s) = true → textareaElement Base s = None →
     _setMaxHeight Base s = Throw TypeError).
Proof.
  intros Hfixed. unfold _setMaxHeight, nativeElement.
  assert (Hne : ∀ h, h ≠ "" → negb (String.eqb h "") = true).
  { intros h Hh. by destruct (String.eqb_spec h "") as [->|]. }
  assert (Hset : ∀ h el,
            ∃ el', Ok (set_textareaElement Base (set_style_height h el) s)
                   = Ok (set_textareaElement Base el' s)
                   ∧ style_maxHeight el' = style_maxHeight el
                   ∧ (∀ stored, style_value el "height" h = Some stored →
                      style_height el' = stored)
                   ∧ (style_value el "height" h = None → el' = el)).
  { intros h el. exists (set_style_height h el). split; [done |].
    destruct (set_style_height_frame h el) as (Hh & Hm & _).
    split; [done |]. unfold set_style_height in *.
    destruct (style_value el "height" h); split; [by intros ? [= <-] | done..]. }
  destruct Hfixed as [Hg | Hel].
  - rewrite Hg. destruct (height Base s) as [h|]; simpl; [| done].
    destruct (negb (String.eqb h "")) eqn:Hh.
    + split; [done |]. split.
      * intros ? el [= <-] _ ->. apply Hset.
      * intros _ ->. done.
    + split; [done |]. split; [| done].
      intros ? el [= <-] Hx _. by rewrite (Hne _ Hx) in Hh.
  - rewrite Hel.
    assert (Hbranch : ∀ A (y : A), (if growing Base s then y else y) = y)
      by (intros; by destruct (growing Base s)).
    rewrite Hbranch. destruct (height Base s) as [h|]; simpl; [| done].
    destruct (negb (String.eqb h "")) eqn:Hh; done.
Qed.

(** X15: when the browser takes the [height] input both as a max-height
    and as a height, storing for both a text that parses to a non-zero
    number, a growing textarea set up by [_setMaxHeight] is then grown by
    [autoGrowTextArea] to a height that reads back as the smaller of the
    total height and that number: never above the max height. *)
Theorem setMaxHeight_then_autoGrow s el h stored m t :
  growing Base s = true →
  textareaElement Base s = Some el →
  height Base s = Some h → h ≠ "" →
  style_value el "max-height" h = Some stored →
  style_value el "height" h = Some stored →
  parseInt stored = Some m → m ≠ 0 →
  _getTextareaTotalHeight (set_style_height "inherit" el) = Some t →
  0 ≤ t < 1000000 →
  ∃ s1 s2 el2,
    _setMaxHeight Base s = Ok s1
    ∧ autoGrowTextArea Base s1 = Ok s2
    ∧ textareaElement Base s2 = Some el2
    ∧ style_maxHeight el2 = stored
    ∧ parseInt (style_height el2) = Some (Z.min t m).
Proof.
  intros Hg Hel Hh Hne Hmaxok Hok Hm Hm0 Ht Hbound.
  assert (Hh' : negb (String.eqb h "") = true)
    by (by destruct (String.eqb_spec h "") as [->|]).
  destruct (setMaxHeight_growing_run s el Hg Hel)
    as (el1 & Hrun & _ & Hcomputed & Hscroll & Hcss & Hmax).
  cbv zeta in Hmax. rewrite Hh, Hmaxok in Hmax. simpl in Hmax.
  rewrite Hh' in Hmax. cbn [default] in Hmax.
  exists (set_textareaElement Base el1 s).
  rewrite (autoGrowTextArea_run Base (set_textareaElement Base el1 s) el1 Hg eq_refl).
  cbv zeta. cbn [height set_textareaElement].
  set (applied := if num_truthy _ then _ else _).
  destruct (set_style_height_after_inherit applied el1)
    as (Hheight & Hmax2 & _ & _ & _ & _).
  cbv zeta in Hheight, Hmax2.
  eexists _, _. split; [exact Hrun |]. split; [reflexivity |].
  split; [reflexivity |]. rewrite Hmax2, Hheight. split; [done |].
  assert (Happlied : applied = if Z.leb t m then px (Some t) else h).
  { subst applied. unfold _getTextareaTotalHeight in Ht.
    rewrite set_style_height_inherit in Ht. cbn in Ht.
    rewrite Hcomputed, Hscroll, Ht, Hmax, Hh, Hm. cbn [num_truthy num_le].
    rewrite (proj2 (Z.eqb_neq m 0) Hm0). cbn [negb].
    destruct (Z.leb t m); [done |]. simpl. by rewrite Hh'. }
  rewrite Happlied, (style_value_same el el1) by done.
  destruct (Z.leb_spec t m) as [Hle|Hgt].
  - rewrite style_value_px by lia. cbn [default from_option id].
    rewrite parseInt_px by lia. f_equal. lia.
  - rewrite Hok. cbn [default from_option id]. rewrite Hm. f_equal. lia.
Qed.

Lemma handleBackPress_first_step s :
  let step :=
    (if growing Base s then
       s' ← autoGrow s; mret (set_isValueCustomSet Base false s')
     else mret s) in
  (growing Base s = true ∧ textareaElement Base s = None
   ∧ step = Throw TypeError)
  ∨ (∃ s1,
       step = Ok s1
       ∧ base Base s1 = base Base s
       ∧ showExceededText Base s1 = showExceededText Base s
       ∧ maxLength Base s1 = maxLength Base s
       ∧ exceededCharCount Base s1 = exceededCharCount Base s
       ∧ counterExcessOrRemaining Base s1 = counterExcessOrRemaining Base s
       ∧ (growing Base s = true → isValueCustomSet Base s1 = false)
       ∧ (growing Base s = false → s1 = s)).
Proof.
  simpl. destruct (autoGrowTextArea_cases s)
    as [[Hg ->] | [(Hg & Hel & ->) | (el & h & Hg & Hel & ->)]]; rewrite Hg.
  - right. by exists s.
  - by left.
  - right. simpl. eexists. split; [done |]. done.
Qed.

Lemma handleBackPress_clears_flag keyCode s s' :
  growing Base s = true → keyup keyCode s = Ok s' →
  isValueCustomSet Base s' = false.
Proof.
  intros Hg. unfold handleBackPress.
  destruct (handleBackPress_first_step s)
    as [(_ & _ & ->) | (s1 & -> & _ & _ & _ & _ & _ & Hflag & _)]; [done |].
  specialize (Hflag Hg). simpl.
  destruct (negb _ && _); [| by intros [= <-]].
  destruct (cv_truthy _); [| by intros [= <-]].
  destruct (cv_length _) as [n|]; [| done]. simpl.
  destruct (match maxLength Base s1 with Some y => n >? y | None => false end);
    [| by intros [= <-]].
  destruct (cv_substring_to _ _) as [cut|]; [| done]. simpl.
  destruct (set_value _ _ _ _ _) as [s3|]; [| done]. simpl.
  by intros [= <-].
Qed.

(** X16: with [showExceededText] off, the release of DELETE or BACKSPACE
    over a value that is not longer than [maxLength], or when there is no
    [maxLength] at all, records the length of the value and touches neither
    the value nor the counter; the base class is not called. *)
Theorem handleBackPress_within_limit keyCode s v :
  (growing Base s = true → view_rendered Base s) →
  value_of s = CStr v → v ≠ "" →
  (∀ m, maxLength Base s = Some m → str_length v ≤ m) →
  showExceededText Base s = false →
  keyCode = DELETE ∨ keyCode = BACKSPACE →
  ∃ s',
    keyup keyCode s = Ok s'
    ∧ base Base s' = base Base s
    ∧ count_of s' = str_length v
    ∧ exceededCharCount Base s' = exceededCharCount Base s
    ∧ counterExcessOrRemaining Base s' = counterExcessOrRemaining Base s.
Proof.
  intros Hview Hv Hne Hlimit Hoff Hkey. unfold handleBackPress.
  destruct (handleBackPress_first_step s)
    as [(Hg & Hel & _) | (s1 & -> & Hb & Hshow & Hmax & Hex & Hind & _)].
  { destruct (Hview Hg) as [el Hsome]. congruence. }
  simpl. rewrite Hshow, Hoff.
  replace (Z.eqb keyCode DELETE || Z.eqb keyCode BACKSPACE) with true
    by (destruct Hkey as [-> | ->]; reflexivity).
  unfold value. rewrite Hb. fold (value_of s).
  rewrite Hv, (cv_truthy_CStr _ Hne). simpl. rewrite Hmax.
  destruct (maxLength Base s) as [m|].
  - specialize (Hlimit m eq_refl).
    replace (str_length v >? m) with false by (symmetry; lia).
    eexists. split; [done |]. done.
  - eexists. split; [done |]. done.
Qed.

(** X17: on a growing textarea a key release, whatever the key, throws a
    [TypeError] while there is no element, and otherwise leaves
    [isValueCustomSet] cleared whenever it returns; on a textarea that is
    not growing, a key other than DELETE and BACKSPACE, or any key with
    [showExceededText] on, changes nothing at all. *)
Theorem handleBackPress_growing keyCode s :
  (growing Base s = true → textareaElement Base s = None →
   keyup keyCode s = Throw TypeError)
  ∧ (growing Base s = true → ∀ s', keyup keyCode s = Ok s' →
     isValueCustomSet Base s' = false)
  ∧ (growing Base s = false →
     showExceededText Base s = true ∨ (keyCode ≠ DELETE ∧ keyCode ≠ BACKSPACE) →
     keyup keyCode s = Ok s).
Proof.
  split; [| split].
  - intros Hg Hel. unfold handleBackPress, autoGrowTextArea, nativeElement.
    by rewrite Hg, Hel.
  - intros Hg s'. by apply handleBackPress_clears_flag.
  - intros Hg Hother. unfold handleBackPress. rewrite Hg. simpl.
    assert (negb (showExceededText Base s)
            && (Z.eqb keyCode DELETE || Z.eqb keyCode BACKSPACE) = false) as ->.
    { destruct Hother as [-> | [Hd Hbk]]; [done |].
      apply andb_false_intro2, orb_false_intro; by apply Z.eqb_neq. }
    done.
Qed.

(** X18: [ngAfterViewChecked] does nothing unless the control holds a
    value still flagged as custom set; then it sends
    ['textarea: ngAfterViewChecked'] even when the textarea is not growing
    and nothing else changes, and it throws a [TypeError] when the textarea
    is growing and has no element. *)
Theorem ngAfterViewChecked_effect s :
  (cv_truthy (value_of s) = false ∨ isValueCustomSet Base s = false →
   ngAfterViewChecked s = Ok s)
  ∧ (cv_truthy (value_of s) = true → isValueCustomSet Base s = true →
     (growing Base s = false →
      ngAfterViewChecked s
      = Ok (stateChanges_next Base "textarea: ngAfterViewChecked" s))
     ∧ (growing Base s = true → textareaElement Base s = None →
        ngAfterViewChecked s = Throw TypeError)
     ∧ (∀ s', ngAfterViewChecked s = Ok s' →
        stateChanges Base s'
        = (stateChanges Base s ++ ["textarea: ngAfterViewChecked"])%list
        ∧ base Base s' = base Base s)).
Proof.
  unfold ngAfterViewChecked. split.
  - intros [-> | ->]; [done |]. by rewrite andb_false_r.
  - intros -> ->. simpl.
    destruct (autoGrowTextArea_cases s)
      as [[Hg ->] | [(Hg & Hel & ->) | (el & h & Hg & Hel & ->)]];
      rewrite Hg; simpl.
    + split; [done |]. split; [done |]. by intros s' [= <-].
    + split; [done |]. split; [done |]. done.
    + split; [done |]. split; [by rewrite Hel |]. by intros s' [= <-].
Qed.

(** X19: once a key has been released on a growing textarea,
    [ngAfterViewChecked] no longer does anything. *)
Theorem ngAfterViewChecked_after_keyup keyCode s s' :
  growing Base s = true →
  keyup keyCode s = Ok s' →
  ngAfterViewChecked s' = Ok s'.
Proof.
  intros Hg Hrun. unfold ngAfterViewChecked.
  rewrite (handleBackPress_clears_flag keyCode s s' Hg Hrun).
  by rewrite andb_false_r.
Qed.

Lemma update_pasted_excess s v m el :
  value_of s = CStr v → maxLength Base s = Some m →
  0 < m → m < str_length v →
  textareaElement Base s = Some el →
  ∃ s',
    update (set_isPasted Base true s) = Ok s'
    ∧ textareaElement Base s'
      = Some (setSelectionRange (Some m) (Some (str_length v)) (focus el))
    ∧ _isPasted Base s' = false
    ∧ counterExcessOrRemaining Base s' = "excess"
    ∧ exceededCharCount Base s' = Some (str_length v - m).
Proof.
  intros Hv Hm Hpos Hlong Hel.
  assert (Hne : v ≠ "") by (intros ->; unfold str_length in Hlong; simpl in Hlong; lia).
  unfold updateCounterInteractions, value. simpl. fold (value_of s).
  rewrite Hv, (cv_truthy_CStr _ Hne). simpl. rewrite Hm. simpl.
  replace (m =? 0) with false by (symmetry; lia). simpl.
  unfold validateLengthOnCustomSet, nativeElement. simpl. rewrite Hm, Hel. simpl.
  replace (str_length v >? m) with true by (symmetry; lia). simpl.
  eexists. split; [done |]. simpl. by rewrite Hm.
Qed.

(** X20: text pasted into a control whose value is then longer than a
    positive [maxLength] ends up with the excess selected, from [maxLength]
    to the length, on the focused element, with the indicator on
    ['excess'], the excess as count and the paste flag down: at once where
    [window.clipboardData] exists, and after the registered callback has run
    where [navigator.clipboard] is used. *)
Theorem handlePasteInteraction_selects_excess w s v m el :
  value_of s = CStr v → maxLength Base s = Some m →
  0 < m → m < str_length v →
  textareaElement Base s = Some el →
  clipboardData w = true ∨ clipboard w = true →
  ∃ s',
    (clipboardData w = true → handlePasteInteraction w s = Ok (s', []))
    ∧ (clipboardData w = false →
       ∃ s1, handlePasteInteraction w s = Ok (s1, [OnClipText])
             ∧ run_callback OnClipText s1 = Ok s')
    ∧ textareaElement Base s'
      = Some (setSelectionRange (Some m) (Some (str_length v)) (focus el))
    ∧ _isPasted Base s' = false
    ∧ counterExcessOrRemaining Base s' = "excess"
    ∧ exceededCharCount Base s' = Some (str_length v - m).
Proof.
  intros Hv Hm Hpos Hlong Hel Hw.
  destruct (update_pasted_excess s v m el Hv Hm Hpos Hlong Hel)
    as (s' & Hrun & Hrest).
  exists s'. unfold handlePasteInteraction, run_callback.
  split; [| split; [| exact Hrest]].
  - intros ->. by rewrite Hrun.
  - intros Hie. rewrite Hie. destruct Hw as [Hw|Hw]; [congruence |].
    rewrite Hw. by eexists.
Qed.

(** X21: the paste handler throws a [TypeError] in a browser with neither
    clipboard API; and where [window.clipboardData] exists, a paste into a
    control that is empty, or that has no [maxLength], returns with the
    paste flag still up and the counter untouched. *)
Theorem handlePasteInteraction_edges w s :
  (clipboardData w = false → clipboard w = false →
   handlePasteInteraction w s = Throw TypeError)
  ∧ (clipboardData w = true →
     cv_truthy (value_of s) = false ∨ num_truthy (maxLength Base s) = false →
     ∃ s',
       handlePasteInteraction w s = Ok (s', [])
       ∧ _isPasted Base s' = true
       ∧ exceededCharCount Base s' = exceededCharCount Base s
       ∧ counterExcessOrRemaining Base s' = counterExcessOrRemaining Base s
       ∧ textareaElement Base s' = textareaElement Base s).
Proof.
  unfold handlePasteInteraction. split; [by intros -> -> |].
  intros -> Hnothing. unfold updateCounterInteractions, value. simpl.
  fold (value_of s).
  destruct (cv_truthy (value_of s)) eqn:Ht; [| by eexists].
  destruct Hnothing as [|Hmax]; [done |].
  destruct (value_of s) as [| |x]; try done. simpl. rewrite Hmax.
  by eexists.
Qed.

Lemma update_frame s s' :
  update s = Ok s' →
  base Base s' = base Base s ∧ maxLength Base s' = maxLength Base s.
Proof.
  unfold updateCounterInteractions.
  destruct (cv_truthy _); [| by intros [= <-]].
  destruct (cv_length _) as [n|]; [| done]. simpl.
  destruct (num_truthy _); [| by intros [= <-]].
  unfold validateLengthOnCustomSet, nativeElement. simpl.
  destruct (match maxLength Base s with Some y => n >? y | None => false end);
    [| by intros [= <-]].
  destruct (_isPasted Base s); [destruct (textareaElement Base s); [| done] |];
    simpl; by intros [= <-].
Qed.

(** X22: [getUpdatedState] flags the text as exceeded exactly when the
    content is longer than [maxLength], the content being the value when
    there is one and the text of the element otherwise; never when there is
    neither, or no [maxLength].  It returns [stateType] and sets the
    indicator to ['excess'] when exceeded, the inherited [status] and
    ['remaining'] when not, and leaves [exceededCharCount] as it was. *)
Theorem getUpdatedState_result v :
  let s := instance v in
  let r := getUpdatedState v in
  (∀ x m, value_of s = CStr x → x ≠ "" → maxLength Base s = Some m →
          (hasTextExceeded r.2 = true ↔ m < str_length x))
  ∧ (∀ el m, cv_truthy (value_of s) = false →
             textareaElement Base s = Some el → maxLength Base s = Some m →
             (hasTextExceeded r.2 = true ↔ m < str_length (element_value el)))
  ∧ ((cv_truthy (value_of s) = false ∧ textareaElement Base s = None)
     ∨ maxLength Base s = None → hasTextExceeded r.2 = false)
  ∧ (hasTextExceeded r.2 = true →
     r.1 = stateType v
     ∧ counterExcessOrRemaining Base (instance r.2) = "excess")
  ∧ (hasTextExceeded r.2 = false →
     r.1 = super_status (base Base s)
     ∧ counterExcessOrRemaining Base (instance r.2) = "remaining")
  ∧ exceededCharCount Base (instance r.2) = exceededCharCount Base s
  ∧ stateType r.2 = stateType v.
Proof.
  intros s r. subst s r. unfold getUpdatedState, _getContentLength.
  split; [| split; [| split]].
  - intros x m -> Hx ->. rewrite (cv_truthy_CStr _ Hx). simpl.
    destruct (Z.gtb_spec (str_length x) m); simpl; split; (done || lia).
  - intros el m Ht -> ->.
    assert (Hlen : match value_of (instance v) with
                   | CStr x => if cv_truthy (CStr x) then Some (str_length x)
                               else Some (str_length (element_value el))
                   | _ => Some (str_length (element_value el))
                   end = Some (str_length (element_value el))).
    { destruct (value_of (instance v)) as [| |x]; try done. by rewrite Ht. }
    rewrite Hlen. simpl.
    destruct (Z.gtb_spec (str_length (element_value el)) m); simpl;
      split; (done || lia).
  - intros [[Ht ->] | ->].
    + assert (Hlen : match value_of (instance v) with
                     | CStr x => if cv_truthy (CStr x) then Some (str_length x)
                                 else None
                     | _ => None
                     end = None).
      { destruct (value_of (instance v)) as [| |x]; try done. by rewrite Ht. }
      by rewrite Hlen.
    + by destruct (match value_of (instance v) with CStr _ => _ | _ => _ end).
  - by destruct (num_gt _ _).
Qed.

(** X23: right after the counter was updated for a non-empty value and a
    positive [maxLength], [getUpdatedState] finds the indicator already in
    place: it leaves the instance as it is and flags the text as exceeded
    exactly when the indicator says ['excess']. *)
Theorem getUpdatedState_after_update s s' x m exceeded st :
  value_of s = CStr x → x ≠ "" →
  maxLength Base s = Some m → 0 < m →
  update s = Ok s' →
  let r := getUpdatedState (mkView s' exceeded st) in
  instance r.2 = s'
  ∧ (hasTextExceeded r.2 = true ↔ counterExcessOrRemaining Base s' = "excess").
Proof.
  intros Hv Hx Hm Hpos Hrun.
  destruct (update_frame s s' Hrun) as [Hb Hmax].
  assert (Hv' : value_of s' = CStr x) by (unfold value; by rewrite Hb).
  assert (Hind : (counterExcessOrRemaining Base s' = "excess" ↔ m < str_length x)
                 ∧ (counterExcessOrRemaining Base s' = "remaining" ↔ str_length x ≤ m)).
  { revert Hrun. unfold updateCounterInteractions.
    rewrite Hv, (cv_truthy_CStr _ Hx). simpl. rewrite Hm. simpl.
    replace (m =? 0) with false by (symmetry; lia). simpl. intros Hrun.
    by destruct (validateLengthOnCustomSet_returns
                   (set_textAreaCharCount Base (str_length x) s) s' m Hm Hrun)
      as (_ & ? & ? & _). }
  cbv zeta. unfold getUpdatedState, _getContentLength. cbn [instance].
  rewrite Hv', (cv_truthy_CStr _ Hx), Hmax, Hm. simpl.
  destruct Hind as [Hex Hrem].
  destruct (Z.gtb_spec (str_length x) m) as [Hgt|Hle]; simpl.
  - apply Hex in Hgt. split; [| done]. destruct s'; simpl in *. by rewrite Hgt.
  - apply Hrem in Hle. split; [| by rewrite Hle].
    destruct s'; simpl in *. by rewrite Hle.
Qed.

Lemma setMaxHeight_showExceededText s s1 :
  _setMaxHeight Base s = Ok s1 →
  showExceededText Base s1 = showExceededText Base s.
Proof.
  unfold _setMaxHeight, nativeElement.
  destruct (growing Base s), (textareaElement Base s) as [el|],
    (height Base s) as [h|]; simpl;
    try destruct (negb (String.eqb h "")); simpl; try done;
    by intros [= <-].
Qed.

(** X24: [ngAfterViewInit] fails with the error of [_setMaxHeight], before
    the base class is called, when that throws; otherwise it hands to the
    base class the instance [_setMaxHeight] left, with [stateType] set to
    [null] when [showExceededText] is off, so that [getUpdatedState] then
    returns no state for an exceeded text, and with [stateType] kept when it
    is on. *)
Theorem ngAfterViewInit_stateType v :
  (∀ e, _setMaxHeight Base (instance v) = Throw e → ngAfterViewInit v = Throw e)
  ∧ (∀ s1, _setMaxHeight Base (instance v) = Ok s1 →
     ∃ v1,
       ngAfterViewInit v = super_ngAfterViewInit v1
       ∧ instance v1 = s1
       ∧ hasTextExceeded v1 = hasTextExceeded v
       ∧ (showExceededText Base (instance v) = false →
          stateType v1 = None
          ∧ (hasTextExceeded (getUpdatedState v1).2 = true →
             (getUpdatedState v1).1 = None))
       ∧ (showExceededText Base (instance v) = true →
          stateType v1 = stateType v)).
Proof.
  unfold ngAfterViewInit. split.
  - by intros e ->.
  - intros s1 Hs1. rewrite Hs1. simpl.
    rewrite (setMaxHeight_showExceededText _ _ Hs1).
    eexists. split; [done |]. simpl. split; [done |]. split; [done |]. split.
    + intros ->. simpl. split; [done |].
      unfold getUpdatedState. simpl. by destruct (num_gt _ _).
    + by intros ->.
Qed.

End Behaviour.

(** *** More concrete textareas *)

Lemma plain_writeValue_stores :
  writeValue_stores ControlValue plain_getValue plain_store.
Proof. intros v s. eexists. repeat split; reflexivity. Qed.

(** The sample textarea holding ['hi'] instead. *)
Definition sample_short : State ControlValue :=
  mkState ControlValue (CStr "hi") (Some "100px") None (VStr "soft")
    (Some 5) false true (Some sample_element) (Some 0) "remaining" true 0 false [].

(** [<fdp-textarea [growing]="true" [growingMaxLines]="3">], no [height]. *)
Definition sample_lines : State ControlValue :=
  mkState ControlValue (CStr "hello world") None (Some 3) (VStr "soft")
    (Some 5) false true (Some sample_element) (Some 0) "remaining" true 0 false [].

(** [<fdp-textarea height="100px">], not growing, before and after the
    view exists. *)
Definition sample_fixed : State ControlValue :=
  mkState ControlValue CUndefined (Some "100px") None (VStr "soft")
    None false false (Some sample_element) (Some 0) "remaining" false 0 false [].

Definition sample_unrendered : State ControlValue :=
  mkState ControlValue CUndefined (Some "100px") None (VStr "soft")
    None false false None (Some 0) "remaining" false 0 false [].

Lemma ngOnInit_counter_start_witness :
  ∃ s1,
    ngOnInit ControlValue plain_getValue plain_ngOnInit sample = plain_ngOnInit s1
    ∧ isValueCustomSet _ s1 = true
    ∧ exceededCharCount _ s1 = Some 0.
Proof.
  destruct (ngOnInit_counter_start ControlValue plain_getValue plain_ngOnInit
              sample) as [_ Hvalue].
  - right. left. reflexivity.
  - apply Hvalue. reflexivity.
Defined.

Lemma validateLengthOnCustomSet_distance_witness :
  ∃ s',
    validateLengthOnCustomSet ControlValue sample = Ok s'
    ∧ exceededCharCount _ s' = Some 5
    ∧ _isPasted _ s' = false.
Proof.
  eexists. split; [reflexivity |].
  destruct (validateLengthOnCustomSet_distance ControlValue sample _ 5
              eq_refl eq_refl) as (Hcount & _ & _ & Hflag & _).
  split; [exact Hcount | exact Hflag].
Defined.

Lemma writeValue_updates_counter_witness :
  ∃ s',
    writeValue ControlValue plain_getValue plain_store (CStr "hi") sample = Ok s'
    ∧ value _ plain_getValue s' = CStr "hi"
    ∧ exceededCharCount _ s' = Some 3
    ∧ counterExcessOrRemaining _ s' = "remaining"
    ∧ last (stateChanges _ s') = Some "textarea: writeValue".
Proof.
  destruct (writeValue_updates_counter ControlValue plain_getValue plain_store
              sample "hi" 5)
    as (s' & Hrun & Hvalue & _ & Hcount & Hind & _ & Hlast).
  - exact plain_writeValue_stores.
  - discriminate.
  - reflexivity.
  - lia.
  - intros _. exists sample_element. reflexivity.
  - exists s'. split; [exact Hrun |]. split; [exact Hvalue |].
    split; [exact Hcount |]. split; [exact Hind | exact Hlast].
Defined.

Lemma autoGrowTextArea_idempotent_witness :
  ∃ s',
    autoGrowTextArea ControlValue sample = Ok s'
    ∧ autoGrowTextArea ControlValue s' = Ok s'.
Proof.
  eexists. split; [reflexivity |].
  apply (autoGrowTextArea_idempotent ControlValue sample). reflexivity.
Defined.

(** [<fdp-textarea [growing]="true" [growingMaxLines]="3" height="100">]:
    a [height] without unit, which the browser does not take. *)
Definition sample_unitless : State ControlValue :=
  mkState ControlValue (CStr "hello world") (Some "100") (Some 3) (VStr "soft")
    (Some 5) false true (Some sample_element) (Some 0) "remaining" true 0 false [].

(** [<fdp-textarea height="100">], not growing. *)
Definition sample_fixed_unitless : State ControlValue :=
  mkState ControlValue CUndefined (Some "100") None (VStr "soft")
    None false false (Some sample_element) (Some 0) "remaining" false 0 false [].

Lemma setMaxHeight_growing_witness :
  (∃ el',
     _setMaxHeight ControlValue sample = Ok (set_textareaElement _ el' sample)
     ∧ style_maxHeight el' = "100px")
  ∧ (∃ el',
       _setMaxHeight ControlValue sample_lines
       = Ok (set_textareaElement _ el' sample_lines)
       ∧ style_maxHeight el' = "60px"
       ∧ parseInt (style_maxHeight el') = Some 60)
  ∧ (∃ el',
       _setMaxHeight ControlValue sample_unitless
       = Ok (set_textareaElement _ el' sample_unitless)
       ∧ style_maxHeight el' = "60px").
Proof.
  split; [| split].
  - destruct (setMaxHeight_growing ControlValue sample sample_element
                eq_refl eq_refl) as (el' & Hrun & _ & Hheight & _).
    exists el'. split; [exact Hrun |].
    apply (Hheight "100px" "100px"); [reflexivity | discriminate | reflexivity].
  - destruct (setMaxHeight_growing ControlValue sample_lines sample_element
                eq_refl eq_refl) as (el' & Hrun & _ & _ & Hlines).
    exists el'. split; [exact Hrun |].
    destruct (Hlines (or_introl eq_refl)) as (Hproduct & _).
    apply (Hproduct 3 20); [reflexivity | discriminate | reflexivity | lia].
  - destruct (setMaxHeight_growing ControlValue sample_unitless sample_element
                eq_refl eq_refl) as (el' & Hrun & _ & _ & Hlines).
    exists el'. split; [exact Hrun |].
    destruct (Hlines (or_intror (ex_intro _ "100" (conj eq_refl eq_refl))))
      as (Hproduct & _).
    apply (Hproduct 3 20); [reflexivity | discriminate | reflexivity | lia].
Defined.

Lemma setMaxHeight_fixed_witness :
  (∃ el',
     _setMaxHeight ControlValue sample_fixed
     = Ok (set_textareaElement _ el' sample_fixed)
     ∧ style_height el' = "100px")
  ∧ _setMaxHeight ControlValue sample_fixed_unitless
    = Ok (set_textareaElement _ sample_element sample_fixed_unitless)
  ∧ _setMaxHeight ControlValue sample_unrendered = Throw TypeError.
Proof.
  split; [| split].
  - destruct (setMaxHeight_fixed ControlValue sample_fixed) as (_ & Hheight & _).
    + left. reflexivity.
    + destruct (Hheight "100px" sample_element) as (el' & Hrun & _ & Hkept & _);
        [reflexivity | discriminate | reflexivity |].
      exists el'. split; [exact Hrun |]. apply (Hkept "100px"). reflexivity.
  - destruct (setMaxHeight_fixed ControlValue sample_fixed_unitless)
      as (_ & Hheight & _).
    + left. reflexivity.
    + destruct (Hheight "100" sample_element) as (el' & Hrun & _ & _ & Hdropped);
        [reflexivity | discriminate | reflexivity |].
      rewrite <- (Hdropped eq_refl). exact Hrun.
  - destruct (setMaxHeight_fixed ControlValue sample_unrendered) as (_ & _ & Hthrow).
    + right. reflexivity.
    + apply Hthrow; reflexivity.
Defined.

Lemma setMaxHeight_then_autoGrow_witness :
  ∃ s1 s2 el2,
    _setMaxHeight ControlValue sample = Ok s1
    ∧ autoGrowTextArea ControlValue s1 = Ok s2
    ∧ textareaElement _ s2 = Some el2
    ∧ style_maxHeight el2 = "100px"
    ∧ parseInt (style_height el2) = Some 100.
Proof.
  apply (setMaxHeight_then_autoGrow ControlValue sample sample_element
           "100px" "100px" 100 302).
  - reflexivity.
  - reflexivity.
  - reflexivity.
  - discriminate.
  - reflexivity.
  - reflexivity.
  - reflexivity.
  - lia.
  - reflexivity.
  - lia.
Defined.

Lemma handleBackPress_within_limit_witness :
  ∃ s',
    handleBackPress ControlValue plain_getValue plain_store plain_store
      BACKSPACE sample_short = Ok s'
    ∧ base _ s' = CStr "hi"
    ∧ _textAreaCharCount _ s' = 2.
Proof.
  destruct (handleBackPress_within_limit ControlValue plain_getValue
              plain_store plain_store BACKSPACE sample_short "hi")
    as (s' & Hrun & Hbase & Hcount & _).
  - intros _. exists sample_element. reflexivity.
  - reflexivity.
  - discriminate.
  - intros m [= <-]. unfold str_length. simpl. lia.
  - reflexivity.
  - right. reflexivity.
  - exists s'. split; [exact Hrun |]. split; [exact Hbase | exact Hcount].
Defined.

Lemma ngAfterViewChecked_after_keyup_witness :
  ∃ s',
    handleBackPress ControlValue plain_getValue plain_store plain_store
      13 sample = Ok s'
    ∧ ngAfterViewChecked ControlValue plain_getValue s' = Ok s'
    ∧ ngAfterViewChecked ControlValue plain_getValue sample ≠ Ok sample.
Proof.
  eexists. split; [reflexivity |]. split.
  - apply (ngAfterViewChecked_after_keyup ControlValue plain_getValue
             plain_store plain_store 13 sample); reflexivity.
  - intros [=].
Defined.

Lemma handlePasteInteraction_selects_excess_witness :
  ∃ s1 s',
    handlePasteInteraction ControlValue plain_getValue (mkBrowser false true) sample
    = Ok (s1, [OnClipText])
    ∧ run_callback ControlValue plain_getValue OnClipText s1 = Ok s'
    ∧ textareaElement _ s'
      = Some (setSelectionRange (Some 5) (Some 11) (focus sample_element))
    ∧ exceededCharCount _ s' = Some 6.
Proof.
  destruct (handlePasteInteraction_selects_excess ControlValue plain_getValue
              (mkBrowser false true) sample "hello world" 5 sample_element)
    as (s' & _ & Hlater & Hsel & _ & _ & Hcount).
  - reflexivity.
  - reflexivity.
  - lia.
  - unfold str_length. simpl. lia.
  - reflexivity.
  - right. reflexivity.
  - destruct (Hlater eq_refl) as (s1 & Hrun & Hcb).
    exists s1, s'. split; [exact Hrun |]. split; [exact Hcb |].
    split; [exact Hsel | exact Hcount].
Defined.

(** The sample textarea once its counter was updated. *)
Definition sample_counted : State ControlValue :=
  set_isPasted _ false
    (set_exceededCharCount _ (Some 6)
       (set_counterExcessOrRemaining _ "excess"
          (set_textAreaCharCount _ 11 sample))).

Lemma getUpdatedState_after_update_witness :
  updateCounterInteractions ControlValue plain_getValue sample = Ok sample_counted
  ∧ instance _ _
      (getUpdatedState ControlValue plain_getValue string (λ _, None)
         (λ _, "") (mkView _ _ sample_counted false (Some "warning"))).2
    = sample_counted.
Proof.
  split; [reflexivity |].
  apply (getUpdatedState_after_update ControlValue plain_getValue string
           (λ _, None) (λ _, "") sample sample_counted "hello world" 5 false
           (Some "warning")).
  - reflexivity.
  - discriminate.
  - reflexivity.
  - lia.
  - reflexivity.
Defined.

End TextArea.
